(** * Employee Engagement Pulse: scoring, aggregation and insight rules

    A shallow embedding of [app/sentiment.py], [app/aggregator.py] and
    [app/insights.py], with the properties of the pipeline proved over it.

    Conventions of the embedding:
    - in the structural properties (ranges, stored rows, de-duplication,
      orderings) a Python [float] is an exact rational ([Q]), comparisons
      are comparisons of rationals and equality of scores is [==];
    - the properties that depend on rounding (the thresholds on weekly
      means and trends, the accumulated reaction boost) are stated over
      module [float64], where a [float] is an IEEE binary64 number and
      [+], [-], [*], [/] round as the machine does;
    - a [date] is its ordinal day number and a [datetime] a number of
      microseconds, both in [Z]; [timedelta(days=n)] adds [n] days;
    - the SQL store is a record of tables, each table the list of its rows
      in insertion order; [query(...).filter(p).first()] is [find p] and
      [db.add(row); db.commit()] appends the row;
    - a function that reads the clock takes the reading as an argument;
    - [try: ... except Exception: db.rollback(); return None] is an option
      computation run against the unchanged store. *)

From Stdlib Require Import ZArith QArith Qabs Qround Lqa Lia Ascii.
From Stdlib Require Import PrimFloat FloatOps SpecFloat.
From stdpp Require Import gmap strings list sorting pretty.

Local Open Scope Q_scope.
Set Warnings "-inexact-float".

(** ** Python numbers *)

Module py.

Definition lt (x y : Q) : bool := negb (Qle_bool y x).
Definition le (x y : Q) : bool := Qle_bool x y.
Definition gt (x y : Q) : bool := lt y x.
Definition ge (x y : Q) : bool := le y x.

(** [max(a, b)] keeps its first argument unless the second is greater;
    [min(a, b)] keeps its first argument unless the second is smaller. *)
Definition max (a b : Q) : Q := if gt b a then b else a.
Definition min (a b : Q) : Q := if lt b a then b else a.

(** [sum(xs)]: left to right from 0. *)
Definition sum (xs : list Q) : Q := fold_left Qplus xs 0.
Definition sumZ (xs : list Z) : Z := fold_left Z.add xs 0%Z.

Definition len {A} (xs : list A) : Q := inject_Z (Z.of_nat (length xs)).

(** [round(x, nd)]: to the nearest multiple of 10^-nd, ties to even. *)
Definition round_half_even (y : Q) : Z :=
  let f := Qfloor y in
  let d := y - inject_Z f in
  if lt d (1 # 2) then f
  else if lt (1 # 2) d then (f + 1)%Z
  else if Z.even f then f else (f + 1)%Z.

Definition round (x : Q) (nd : nat) : Q :=
  let scale := inject_Z (10 ^ Z.of_nat nd) in
  inject_Z (round_half_even (x * scale)) / scale.

(** [f"{x:.2f}"] and, with [plus], [f"{x:+.2f}"]: fixed-point text of [x]
    with [nd] digits after the point. *)
Fixpoint pad_zeros (nd : nat) (digits : string) : string :=
  match nd with
  | O => digits
  | S k =>
      if (String.length digits <? nd)%nat
      then pad_zeros k ("0" +:+ digits) else digits
  end.

Definition format_f (plus : bool) (nd : nat) (x : Q) : string :=
  let scale := (10 ^ Z.of_nat nd)%Z in
  let r := round_half_even (Qabs x * inject_Z scale) in
  let sign := if lt x 0 then "-" else if plus then "+" else "" in
  let whole := pretty (r / scale)%Z in
  match nd with
  | O => sign +:+ whole
  | _ => sign +:+ whole +:+ "." +:+ pad_zeros nd (pretty (r mod scale)%Z)
  end.

(** [max(a, b)] on [str]: code-point order, first argument kept on ties. *)
Definition str_max (a b : string) : string :=
  if String.ltb a b then b else a.

(** Truth value of a [str]. *)
Definition truthy (s : string) : bool := negb (String.eqb s "").

(** [str.lower()], on the ASCII letters. *)
Definition lower_ascii (c : ascii) : ascii :=
  let n := nat_of_ascii c in
  if ((65 <=? n) && (n <=? 90))%nat then ascii_of_nat (n + 32) else c.

Fixpoint lower (s : string) : string :=
  match s with
  | EmptyString => EmptyString
  | String c s' => String (lower_ascii c) (lower s')
  end.

(** [sub in s]. *)
Definition contains (sub s : string) : bool :=
  match String.index 0 sub s with Some _ => true | None => false end.

(** [s.replace(c, '')] for a one-character [c]. *)
Fixpoint remove_char (c : ascii) (s : string) : string :=
  match s with
  | EmptyString => EmptyString
  | String a s' =>
      if Ascii.eqb a c then remove_char c s' else String a (remove_char c s')
  end.

(** [str.isspace] on ASCII: tab..carriage return, the four separators, space. *)
Definition is_space (c : ascii) : bool :=
  let n := nat_of_ascii c in
  (((9 <=? n) && (n <=? 13)) || ((28 <=? n) && (n <=? 32)))%nat.

Fixpoint strip_left (s : string) : string :=
  match s with
  | EmptyString => EmptyString
  | String c s' => if is_space c then strip_left s' else s
  end.

(** [not s.strip()]: stripping leaves nothing exactly when stripping on
    the left already does. *)
Definition blank (s : string) : bool := String.eqb (strip_left s) "".

End py.

(** ** app/models.py *)

Module Sentiment.
Record t := mk {
  channel_id : string;
  user_id : option string;
  message_ts : string;
  text_content : string;
  sentiment_score : Q;
  confidence : Q;
  emoji_boost : Q;
  reaction_boost : Q;
  final_score : Q;
  analysis_date : Z;
}.
End Sentiment.

Module WeeklySummary.
Record t := mk {
  channel_id : string;
  week_start : Z;
  week_end : Z;
  message_count : Z;
  avg_sentiment : Q;
  sentiment_trend : Q;
  burnout_flag : bool;
  engagement_level : string;
  top_topics : list string;
  active_user_count : Z;
}.
End WeeklySummary.

(** The JSON snapshot stored in [Insight.data_source]. *)
#[warnings="-register-all"]
Inductive json :=
| JInt (n : Z)
| JNum (x : Q)
| JStr (s : string)
| JList (xs : list json).

Module Insight.
Record t := mk {
  channel_id : string;
  insight_type : string;
  title : string;
  description : string;
  severity : string;
  actionable : bool;
  recommendation : string;
  data_source : list (string * json);
  is_active : bool;
  created_at : option Z;
}.
End Insight.

(** The store: one list of rows per table. *)
Record Session := mkSession {
  sentiments : list Sentiment.t;
  weekly_summaries : list WeeklySummary.t;
  insights : list Insight.t;
}.

Definition empty_db : Session := mkSession [] [] [].

Definition add_sentiment (s : Sentiment.t) (db : Session) : Session :=
  mkSession (sentiments db ++ [s]) (weekly_summaries db) (insights db).

Definition add_weekly (w : WeeklySummary.t) (db : Session) : Session :=
  mkSession (sentiments db) (weekly_summaries db ++ [w]) (insights db).

(** [db.add(insight); db.commit()]: [created_at] takes the column default
    [func.now()]. *)
Definition add_insight (now : Z) (i : Insight.t) (db : Session) : Session :=
  let row := Insight.mk (Insight.channel_id i) (Insight.insight_type i)
               (Insight.title i) (Insight.description i) (Insight.severity i)
               (Insight.actionable i) (Insight.recommendation i)
               (Insight.data_source i) (Insight.is_active i) (Some now) in
  mkSession (sentiments db) (weekly_summaries db) (insights db ++ [row]).

(** The row an ORM object stands for is the first one its query matched;
    assigning to its attributes and committing rewrites that row. *)
Fixpoint update_first {A} (p : A -> bool) (f : A -> A) (l : list A) : list A :=
  match l with
  | [] => []
  | x :: l' => if p x then f x :: l' else x :: update_first p f l'
  end.

(** ** app/sentiment.py *)

Module sentiment.

(** Emoji sentiment mappings. *)
Definition EMOJI_SCORES : gmap string Q := list_to_map
  [ ("👍", 0.5); (":thumbsup:", 0.5); (":+1:", 0.5); ("👎", -0.5);
    (":thumbsdown:", -0.5); (":-1:", -0.5); ("🔥", 0.4); (":fire:", 0.4);
    ("❤️", 0.6); (":heart:", 0.6); ("😀", 0.4); (":grinning:", 0.4);
    ("😊", 0.4); (":blush:", 0.4); ("😃", 0.4); (":smiley:", 0.4); ("😄", 0.4);
    (":smile:", 0.4); ("🎉", 0.5); (":tada:", 0.5); ("✅", 0.3);
    (":white_check_mark:", 0.3); ("💯", 0.6); (":100:", 0.6); ("🚀", 0.4);
    (":rocket:", 0.4); ("⭐", 0.4); (":star:", 0.4); ("💪", 0.4);
    (":muscle:", 0.4); ("😞", -0.4); (":disappointed:", -0.4); ("😢", -0.5);
    (":cry:", -0.5); ("😭", -0.6); (":sob:", -0.6); ("😡", -0.6);
    (":rage:", -0.6); ("😤", -0.4); (":huffing_with_anger:", -0.4);
    ("😬", -0.2); (":grimacing:", -0.2); ("😰", -0.4); (":cold_sweat:", -0.4);
    ("😫", -0.5); (":tired_face:", -0.5); ("💀", -0.3); (":skull:", -0.3);
    ("❌", -0.3); (":x:", -0.3); ("⚠️", -0.2); (":warning:", -0.2);
    ("🤔", 0.0); (":thinking:", 0.0); (":thinking_face:", 0.0); ("👀", 0.1);
    (":eyes:", 0.1); ("🤷", 0.0); (":shrug:", 0.0); ("🤖", 0.0);
    (":robot:", 0.0); ("💻", 0.1); (":computer:", 0.1); ("⚡", 0.2);
    (":zap:", 0.2); ("🎯", 0.2); (":dart:", 0.2); ("📊", 0.1);
    (":bar_chart:", 0.1); ("🐛", -0.2); (":bug:", -0.2); ("🔧", 0.0);
    (":wrench:", 0.0); ("☕", 0.2); (":coffee:", 0.2); ("🍕", 0.3);
    (":pizza:", 0.3) ].

(** Reaction sentiment mappings (for reactions to messages). *)
Definition REACTION_SCORES : gmap string Q := list_to_map
  [ ("thumbsup", 0.5); ("+1", 0.5); ("thumbsdown", -0.5); ("-1", -0.5);
    ("fire", 0.4); ("heart", 0.6); ("tada", 0.5); ("100", 0.6);
    ("rocket", 0.4); ("star", 0.4); ("eyes", 0.1); ("thinking_face", 0.0);
    ("x", -0.3); ("warning", -0.2); ("bug", -0.2); ("coffee", 0.2);
    ("pizza", 0.3) ].

(** Work-related keywords and their sentiment modifiers, in the order the
    dictionary is iterated. *)
Definition WORK_KEYWORDS : list (string * Q) :=
  [ ("deploy", 0.1); ("shipped", 0.2); ("release", 0.1); ("launch", 0.2);
    ("success", 0.3); ("completed", 0.2); ("fixed", 0.2); ("resolved", 0.2);
    ("great job", 0.4); ("well done", 0.3); ("awesome", 0.3);
    ("excellent", 0.3); ("bug", -0.2); ("error", -0.2); ("failed", -0.3);
    ("broken", -0.3); ("issue", -0.1); ("problem", -0.2); ("incident", -0.3);
    ("outage", -0.4); ("down", -0.2); ("crash", -0.3); ("urgent", -0.1);
    ("critical", -0.2); ("blocke", -0.2); ("stuck", -0.2);
    ("frustrated", -0.4); ("stressed", -0.4); ("overwhelmed", -0.5);
    ("burnout", -0.6); ("tired", -0.2) ].

(** What the module imports from outside the repository: the [re] module,
    the optional [emoji] package ([HAS_EMOJI] records whether its import
    succeeded) and NLTK's VADER analyser, whose [polarity_scores] returns a
    dictionary of scores. *)
Record Libs := mkLibs {
  re_findall : string -> string -> list string;
  re_sub : string -> string -> string -> string;
  HAS_EMOJI : bool;
  distinct_emoji_list : string -> list string;
  polarity_scores : string -> gmap string Q;
}.

Section scoring.
Variable lib : Libs.

(** Extract all emojis from text. *)
Definition extract_emojis (text : string) : list string :=
  let unicode_emojis :=
    if HAS_EMOJI lib then distinct_emoji_list lib text
    else re_findall lib "[😊😀🙂🎉👍✅😞😡😤😢👎❌🤔💯🔥❤️💪🚀]" text in
  let slack_emojis := re_findall lib ":([^:\s]+):" text in
  let slack_emojis := (fun e => ":" +:+ e +:+ ":") <$> slack_emojis in
  unicode_emojis ++ slack_emojis.

(** One turn of the loop over the extracted emojis. *)
Definition add_emoji_score (emoji_score : Q) (emo : string) : Q :=
  match EMOJI_SCORES !! emo with
  | Some w => emoji_score + w
  | None =>
      match EMOJI_SCORES !! py.remove_char ":" emo with
      | Some w => emoji_score + w
      | None => emoji_score
      end
  end.

(** Calculate sentiment boost from emojis in text. *)
Definition calculate_emoji_sentiment (text : string) : Q :=
  let emojis := extract_emojis text in
  let emoji_score := fold_left add_emoji_score emojis 0.0 in
  let emoji_score :=
    if (0 <? length emojis)%nat
    then emoji_score / inject_Z (Z.max (Z.of_nat (length emojis)) 1)
    else emoji_score in
  py.min (py.max emoji_score (-1.0)) 1.0.

(** Calculate sentiment modifier based on work-related keywords. *)
Definition calculate_keyword_sentiment (text : string) : Q :=
  let text_lower := py.lower text in
  let keyword_score :=
    fold_left
      (fun acc kw => if py.contains kw.1 text_lower then acc + kw.2 else acc)
      WORK_KEYWORDS 0.0 in
  py.min (py.max keyword_score (-0.5)) 0.5.

(** Analyze sentiment of text using VADER. *)
Definition analyze_text_sentiment (text : string) : gmap string Q :=
  if negb (py.truthy text) || py.blank text then
    list_to_map
      [("compound", 0.0); ("positive", 0.0); ("neutral", 1.0); ("negative", 0.0)]
  else
    let cleaned_text := re_sub lib "<@[UW][A-Z0-9]+>" "@user" text in
    let cleaned_text := re_sub lib "<#[C][A-Z0-9]+\|([^>]+)>" "#\1" cleaned_text in
    let cleaned_text := re_sub lib "<https?://[^>]+>" "URL" cleaned_text in
    polarity_scores lib cleaned_text.

(** The row of a message: same timestamp and channel. *)
Definition is_message (message_ts channel_id : string) (s : Sentiment.t) : bool :=
  String.eqb (Sentiment.message_ts s) message_ts
  && String.eqb (Sentiment.channel_id s) channel_id.

(** The body of [score_event] once the essential fields are there and no
    row exists yet; [None] is a raised [KeyError]. *)
Definition score_new (today : Z) (channel_id user_id timestamp text : string)
    (db : Session) : option (option Sentiment.t * Session) :=
  let text_scores := analyze_text_sentiment text in
  base_sentiment ← text_scores !! "compound";
  let emoji_boost := calculate_emoji_sentiment text in
  let keyword_modifier := calculate_keyword_sentiment text in
  let final_score := base_sentiment + emoji_boost + keyword_modifier in
  let final_score := py.min (py.max final_score (-1.0)) 1.0 in
  positive ← text_scores !! "positive";
  negative ← text_scores !! "negative";
  let sentiment :=
    Sentiment.mk channel_id (Some user_id) timestamp
      (String.substring 0 500 text)
      base_sentiment (py.max positive negative) emoji_boost 0.0
      final_score today in
  Some (Some sentiment, add_sentiment sentiment db).

(** Main function to score a Slack event and store sentiment. *)
Definition score_event (today : Z)
    (event_body : gmap string (gmap string string)) (db : Session)
    : option Sentiment.t * Session :=
  let event := default ∅ (event_body !! "event") in
  let event_type := event !! "type" in
  if negb (bool_decide (event_type = Some "message")) then (None, db) else
  let channel_id := event !! "channel" in
  let user_id := event !! "user" in
  let timestamp := event !! "ts" in
  let text := default "" (event !! "text") in
  match channel_id, user_id, timestamp with
  | Some channel_id, Some user_id, Some timestamp =>
      if negb (forallb py.truthy [channel_id; user_id; timestamp])
      then (None, db)
      else
        let existing := find (is_message timestamp channel_id) (sentiments db) in
        match existing with
        | Some existing => (Some existing, db)
        | None =>
            default (None, db)
              (score_new today channel_id user_id timestamp text db)
        end
  | _, _, _ => (None, db)
  end.

End scoring.

(** The assignments of [update_sentiment_with_reaction] to the row found. *)
Definition apply_reaction (reaction_score : Q) (s : Sentiment.t) : Sentiment.t :=
  let reaction_boost := Sentiment.reaction_boost s + reaction_score in
  let final_score :=
    Sentiment.sentiment_score s + Sentiment.emoji_boost s + reaction_boost in
  let final_score := py.min (py.max final_score (-1.0)) 1.0 in
  Sentiment.mk (Sentiment.channel_id s) (Sentiment.user_id s)
    (Sentiment.message_ts s) (Sentiment.text_content s)
    (Sentiment.sentiment_score s) (Sentiment.confidence s)
    (Sentiment.emoji_boost s) reaction_boost final_score
    (Sentiment.analysis_date s).

(** Update existing sentiment with reaction data. *)
Definition update_sentiment_with_reaction (message_ts channel_id reaction : string)
    (modifier : Z) (db : Session) : bool * Session :=
  let sentiment := find (is_message message_ts channel_id) (sentiments db) in
  match sentiment with
  | None => (false, db)
  | Some _ =>
      let reaction_score :=
        default 0.0 (REACTION_SCORES !! reaction) * inject_Z modifier in
      (true,
       mkSession
         (update_first (is_message message_ts channel_id)
            (apply_reaction reaction_score) (sentiments db))
         (weekly_summaries db) (insights db))
  end.

(** The dictionary [get_sentiment_summary] returns; the key
    ["sentiment_trend"] is only there when the range holds a message. *)
Record SentimentSummary := mkSentimentSummary {
  message_count : Z;
  average_sentiment : Q;
  positive_count : Z;
  neutral_count : Z;
  negative_count : Z;
  sentiment_trend : option string;
}.

Definition count_if {A} (p : A -> bool) (l : list A) : Z :=
  Z.of_nat (length (List.filter p l)).

Definition is_positive (score : Q) : bool := py.gt score 0.1.
Definition is_neutral (score : Q) : bool := py.le (-0.1) score && py.le score 0.1.
Definition is_negative (score : Q) : bool := py.lt score (-0.1).

(** Get sentiment summary for a channel within date range. *)
Definition get_sentiment_summary (channel_id : string) (start_date end_date : Z)
    (db : Session) : SentimentSummary :=
  let sentiments :=
    List.filter
      (fun s => String.eqb (Sentiment.channel_id s) channel_id
                && (start_date <=? Sentiment.analysis_date s)%Z
                && (Sentiment.analysis_date s <=? end_date)%Z)
      (sentiments db) in
  match sentiments with
  | [] => mkSentimentSummary 0 0.0 0 0 0 None
  | _ =>
      let scores := Sentiment.final_score <$> sentiments in
      let avg_sentiment := py.sum scores / py.len scores in
      let positive_count := count_if is_positive scores in
      let neutral_count := count_if is_neutral scores in
      let negative_count := count_if is_negative scores in
      mkSentimentSummary (Z.of_nat (length sentiments))
        (py.round avg_sentiment 3) positive_count neutral_count negative_count
        (Some (if py.gt avg_sentiment 0.1 then "positive"
               else if py.lt avg_sentiment (-0.1) then "negative"
               else "neutral"))
  end.

End sentiment.

(** ** app/aggregator.py *)

Module aggregator.

(** Configuration read from the environment when the module is loaded. *)
Record Config := mkConfig {
  SENTIMENT_THRESHOLD_NEGATIVE : Q;
  BURNOUT_DELTA_THRESHOLD : Q;
}.

Definition default_config : Config := mkConfig (-0.1) (-0.2).

(** [timedelta(days=7)] on the microsecond clock. *)
Definition seven_days : Z := (7 * 86400 * 1000000)%Z.

(** [date.weekday()]: Monday is 0; ordinal day 1 is a Monday. *)
Definition weekday (d : Z) : Z := ((d + 6) mod 7)%Z.

(** Get the Monday of the week for a given date. *)
Definition get_monday_of_week (target_date : Z) : Z :=
  let days_since_monday := weekday target_date in
  (target_date - days_since_monday)%Z.

(** Get the Sunday of the week for a given date. *)
Definition get_sunday_of_week (target_date : Z) : Z :=
  let monday := get_monday_of_week target_date in
  (monday + 6)%Z.

Section summaries.
Variable cfg : Config.
(** [date.isoformat()] of an ordinal day. *)
Variable isoformat : Z -> string.

(** The rows of a channel dated within [first, last]. *)
Definition sentiments_between (channel_id : string) (first last : Z)
    (db : Session) : list Sentiment.t :=
  filter
    (fun s => String.eqb (Sentiment.channel_id s) channel_id = true
              ∧ (first ≤ Sentiment.analysis_date s)%Z
              ∧ (Sentiment.analysis_date s ≤ last)%Z)
    (sentiments db).

(** The active [burnout_alert] of the channel created within the last
    seven days, if any. *)
Definition is_recent_burnout_alert (channel_id : string) (now : Z)
    (i : Insight.t) : bool :=
  String.eqb (Insight.channel_id i) channel_id
  && String.eqb (Insight.insight_type i) "burnout_alert"
  && Insight.is_active i
  && match Insight.created_at i with
     | Some created_at => (now - seven_days <=? created_at)%Z
     | None => false
     end.

(** Generate burnout warning insight. *)
Definition generate_burnout_insight (now : Z) (channel_id : string)
    (weekly_summary : WeeklySummary.t) (db : Session) : Session :=
  let recent_insight := find (is_recent_burnout_alert channel_id now) (insights db) in
  match recent_insight with
  | Some _ => db
  | None =>
      let avg_sentiment := WeeklySummary.avg_sentiment weekly_summary in
      let sentiment_trend := WeeklySummary.sentiment_trend weekly_summary in
      let '(severity, title) :=
        if py.le avg_sentiment (-0.3) || py.le sentiment_trend (-0.3)
        then ("critical", "Critical Team Burnout Detected")
        else if py.le avg_sentiment (-0.2) || py.le sentiment_trend (-0.25)
        then ("high", "High Risk of Team Burnout")
        else ("medium", "Team Sentiment Declining") in
      let description :=
        "Team sentiment in this channel has declined significantly. "
        +:+ "Current average sentiment: " +:+ py.format_f false 2 avg_sentiment
        +:+ ", trend over past week: " +:+ py.format_f true 2 sentiment_trend
        +:+ ". Engagement level: "
        +:+ WeeklySummary.engagement_level weekly_summary +:+ "." in
      let recommendations :=
        (if py.le avg_sentiment (-0.2)
         then ["Schedule a team check-in to discuss workload and stress levels"]
         else [])
        ++ (if py.le sentiment_trend (-0.25)
            then ["Investigate recent changes that may have impacted team morale"]
            else [])
        ++ (if (WeeklySummary.active_user_count weekly_summary <? 5)%Z
            then ["Low participation detected - consider improving team engagement"]
            else []) in
      let recommendation :=
        match recommendations with
        | [] => "Monitor closely and consider team intervention"
        | _ => String.concat ". " recommendations
        end in
      let insight :=
        Insight.mk channel_id "burnout_alert" title description severity true
          recommendation
          [("avg_sentiment", JNum avg_sentiment);
           ("sentiment_trend", JNum sentiment_trend);
           ("message_count", JInt (WeeklySummary.message_count weekly_summary));
           ("active_user_count",
            JInt (WeeklySummary.active_user_count weekly_summary));
           ("week_start", JStr (isoformat (WeeklySummary.week_start weekly_summary)));
           ("week_end", JStr (isoformat (WeeklySummary.week_end weekly_summary)))]
          true None in
      add_insight now insight db
  end.

(** The users counted as active: the distinct non-empty [user_id]s. *)
Definition unique_users (sentiments : list Sentiment.t) : gset string :=
  list_to_set
    (omap (fun s => match Sentiment.user_id s with
                    | Some u => if py.truthy u then Some u else None
                    | None => None
                    end) sentiments).

(** Create weekly summary for a specific channel and week. *)
Definition create_weekly_summary (now : Z) (channel_id : string) (week_start : Z)
    (db : Session) : option WeeklySummary.t * Session :=
  let week_end := (week_start + 6)%Z in
  let existing :=
    find (fun w => String.eqb (WeeklySummary.channel_id w) channel_id
                   && (WeeklySummary.week_start w =? week_start)%Z)
         (weekly_summaries db) in
  match existing with
  | Some existing => (Some existing, db)
  | None =>
      let sentiments := sentiments_between channel_id week_start week_end db in
      match sentiments with
      | [] => (None, db)
      | _ =>
          let scores := Sentiment.final_score <$> sentiments in
          let avg_sentiment := py.sum scores / py.len scores in
          let prev_week_start := (week_start - 7)%Z in
          let prev_week_end := (prev_week_start + 6)%Z in
          let prev_week_sentiments :=
            sentiments_between channel_id prev_week_start prev_week_end db in
          let sentiment_trend :=
            match prev_week_sentiments with
            | [] => 0.0
            | _ =>
                let prev_scores := Sentiment.final_score <$> prev_week_sentiments in
                let prev_avg := py.sum prev_scores / py.len prev_scores in
                avg_sentiment - prev_avg
            end in
          let burnout_flag :=
            py.le sentiment_trend (BURNOUT_DELTA_THRESHOLD cfg)
            || py.le avg_sentiment (SENTIMENT_THRESHOLD_NEGATIVE cfg) in
          let engagement_level :=
            if py.ge avg_sentiment 0.3 then "High"
            else if py.ge avg_sentiment 0.1 then "Medium"
            else if py.ge avg_sentiment (-0.1) then "Low"
            else "Critical" in
          let active_user_count := Z.of_nat (size (unique_users sentiments)) in
          let top_topics :=
            ["deployment"; "code review"; "bug fix"; "planning"; "team meeting"] in
          let summary :=
            WeeklySummary.mk channel_id week_start week_end
              (Z.of_nat (length sentiments))
              (py.round avg_sentiment 3) (py.round sentiment_trend 3)
              burnout_flag engagement_level top_topics active_user_count in
          let db := add_weekly summary db in
          let db :=
            if burnout_flag
            then generate_burnout_insight now channel_id summary db
            else db in
          (Some summary, db)
      end
  end.

End summaries.

End aggregator.

(** ** app/insights.py *)

Module insights.

(** [order_by(WeeklySummary.week_start.desc())]. *)
Definition newer_first (a b : WeeklySummary.t) : Prop :=
  (WeeklySummary.week_start b ≤ WeeklySummary.week_start a)%Z.

#[global] Instance newer_first_dec a b : Decision (newer_first a b) :=
  Z_le_dec (WeeklySummary.week_start b) (WeeklySummary.week_start a).

Definition order_by_week_start_desc (l : list WeeklySummary.t)
    : list WeeklySummary.t :=
  merge_sort newer_first l.

Definition of_channel (channel_id : string) (w : WeeklySummary.t) : Prop :=
  String.eqb (WeeklySummary.channel_id w) channel_id = true.

#[global] Instance of_channel_dec c w : Decision (of_channel c w) :=
  bool_eq_dec (String.eqb (WeeklySummary.channel_id w) c) true.

Definition active_counts (ws : list WeeklySummary.t) : list Z :=
  WeeklySummary.active_user_count <$> ws.

Definition avg_sentiments (ws : list WeeklySummary.t) : list Q :=
  WeeklySummary.avg_sentiment <$> ws.

(** A freshly built [Insight]: the columns the constructor call leaves out
    hold their defaults, and [created_at] is filled on insertion. *)
Definition new_insight (channel_id insight_type title description severity
    recommendation : string) (data_source : list (string * json)) : Insight.t :=
  Insight.mk channel_id insight_type title description severity true
    recommendation data_source true None.

(** Check for burnout patterns and warning signs. *)
Definition _check_burnout_patterns (channel_id : string)
    (weekly_summaries : list WeeklySummary.t) : list Insight.t :=
  if (length weekly_summaries <? 2)%nat then [] else
  let recent_weeks := take 3 weekly_summaries in
  let negative_weeks :=
    length (List.filter (fun w => py.lt (WeeklySummary.avg_sentiment w) (-0.1))
              recent_weeks) in
  let insights :=
    if (2 <=? negative_weeks)%nat then
      let severity := if (negative_weeks =? 3)%nat then "critical" else "high" in
      [new_insight channel_id "burnout_pattern"
         "Sustained Negative Sentiment Detected"
         ("Team sentiment has been negative for "
          +:+ pretty (Z.of_nat negative_weeks) +:+ " consecutive weeks. "
          +:+ "Average sentiment over this period: "
          +:+ py.format_f false 2
                (py.sum (avg_sentiments recent_weeks) / py.len recent_weeks))
         severity
         "Schedule immediate team check-in. Consider workload redistribution and stress management support."
         [("weeks_analyzed", JInt (Z.of_nat (length recent_weeks)));
          ("negative_weeks", JInt (Z.of_nat negative_weeks));
          ("avg_sentiment_trend", JList (JNum <$> avg_sentiments recent_weeks))]]
    else [] in
  if (2 <=? length recent_weeks)%nat then
    match head recent_weeks, last recent_weeks with
    | Some newest, Some oldest =>
        let participation_trend :=
          (WeeklySummary.active_user_count newest
           - WeeklySummary.active_user_count oldest)%Z in
        if (participation_trend <? -2)%Z then
          insights ++
          [new_insight channel_id "participation_decline"
             "Team Participation Declining"
             ("Active user participation has dropped by "
              +:+ pretty (Z.abs participation_trend) +:+ " users over recent weeks.")
             "medium"
             "Investigate barriers to participation. Consider team engagement activities."
             [("participation_change", JInt participation_trend);
              ("current_active_users",
               JInt (WeeklySummary.active_user_count newest));
              ("previous_active_users",
               JInt (WeeklySummary.active_user_count oldest))]]
        else insights
    | _, _ => insights
    end
  else insights.

(** Check for positive engagement spikes worth celebrating.  [None] is the
    [ZeroDivisionError] of the percentage above a zero average. *)
Definition _check_engagement_spikes (channel_id : string)
    (weekly_summaries : list WeeklySummary.t) : option (list Insight.t) :=
  if (length weekly_summaries <? 2)%nat then Some [] else
  match weekly_summaries with
  | recent_week :: previous_week :: _ =>
      let insights :=
        if py.gt (WeeklySummary.avg_sentiment recent_week) 0.3 then
          let sentiment_improvement :=
            WeeklySummary.avg_sentiment recent_week
            - WeeklySummary.avg_sentiment previous_week in
          if py.gt sentiment_improvement 0.2 then
            [new_insight channel_id "engagement_spike"
               "Exceptional Team Morale Boost"
               ("Team sentiment has improved significantly by "
                +:+ py.format_f true 2 sentiment_improvement
                +:+ " points this week! " +:+ "Current sentiment: "
                +:+ py.format_f false 2 (WeeklySummary.avg_sentiment recent_week))
               "low"
               "Identify and document what contributed to this positive change to replicate success."
               [("sentiment_improvement", JNum sentiment_improvement);
                ("current_sentiment",
                 JNum (WeeklySummary.avg_sentiment recent_week));
                ("previous_sentiment",
                 JNum (WeeklySummary.avg_sentiment previous_week))]]
          else []
        else [] in
      let current := WeeklySummary.active_user_count recent_week in
      if (10 <? current)%Z then
        let avg_participation :=
          inject_Z (py.sumZ (active_counts (take 4 weekly_summaries)))
          / inject_Z (Z.of_nat (Nat.min (length weekly_summaries) 4)) in
        if py.gt (inject_Z current) (avg_participation * 1.3) then
          if Qeq_bool avg_participation 0 then None else
          let above := (inject_Z current / avg_participation - 1) * 100 in
          Some (insights ++
            [new_insight channel_id "high_participation"
               "Exceptional Team Participation"
               ("Team participation reached " +:+ pretty current
                +:+ " active users this week, "
                +:+ py.format_f false 0 above +:+ "% above average.")
               "low"
               "Celebrate this engagement! Consider what factors contributed to high participation."
               [("current_participation", JInt current);
                ("average_participation", JNum (py.round avg_participation 1));
                ("improvement_percentage", JNum (py.round above 1))]])
        else Some insights
      else Some insights
  | _ => Some []
  end.

(** The least-squares slope of the counts against 0, 1, 2, ... *)
Definition trend_slope (participation_counts : list Z) : Q :=
  let weeks := Z.of_nat <$> seq 0 (length participation_counts) in
  let n := Z.of_nat (length weeks) in
  let sum_x := py.sumZ weeks in
  let sum_y := py.sumZ participation_counts in
  let sum_xy :=
    py.sumZ ((fun wp => (wp.1 * wp.2)%Z) <$> zip weeks participation_counts) in
  let sum_x2 := py.sumZ ((fun w => (w * w)%Z) <$> weeks) in
  inject_Z (n * sum_xy - sum_x * sum_y) / inject_Z (n * sum_x2 - sum_x * sum_x).

(** Analyze participation trends over time. *)
Definition _check_participation_trends (channel_id : string)
    (weekly_summaries : list WeeklySummary.t) : list Insight.t :=
  if (length weekly_summaries <? 3)%nat then [] else
  let participation_counts := active_counts (take 4 weekly_summaries) in
  if (1 <? length participation_counts)%nat then
    let slope := trend_slope participation_counts in
    let data_source :=
      [("trend_slope", JNum (py.round slope 2));
       ("participation_history", JList (JInt <$> participation_counts));
       ("weeks_analyzed", JInt (Z.of_nat (length participation_counts)))] in
    if py.lt slope (-0.5) then
      [new_insight channel_id "participation_trend"
         "Declining Participation Trend"
         ("Team participation has been steadily declining over the past "
          +:+ pretty (Z.of_nat (length participation_counts)) +:+ " weeks.")
         "medium"
         "Investigate causes of reduced participation. Consider team surveys or one-on-ones."
         data_source]
    else if py.gt slope 0.5 then
      [new_insight channel_id "participation_growth"
         "Growing Team Participation"
         ("Team participation has been steadily increasing over the past "
          +:+ pretty (Z.of_nat (length participation_counts)) +:+ " weeks.")
         "low"
         "Continue current engagement strategies. Document successful practices."
         data_source]
    else []
  else [].

Section battery.
(** [x ** 0.5] on floats. *)
Variable pow_half : Q -> Q.

(** Check for high sentiment volatility which might indicate instability. *)
Definition _check_sentiment_volatility (channel_id : string)
    (weekly_summaries : list WeeklySummary.t) : list Insight.t :=
  if (length weekly_summaries <? 4)%nat then [] else
  let recent_sentiments := avg_sentiments (take 4 weekly_summaries) in
  let mean_sentiment := py.sum recent_sentiments / py.len recent_sentiments in
  let variance :=
    py.sum ((fun s => (s - mean_sentiment) * (s - mean_sentiment))
            <$> recent_sentiments)
    / py.len recent_sentiments in
  let std_dev := pow_half variance in
  if py.gt std_dev 0.3 then
    [new_insight channel_id "sentiment_volatility"
       "High Sentiment Volatility Detected"
       ("Team sentiment has been highly variable over recent weeks (std dev: "
        +:+ py.format_f false 2 std_dev +:+ "). "
        +:+ "This may indicate instability or rapid changes in team dynamics.")
       "medium"
       "Investigate causes of sentiment swings. Consider more frequent team check-ins."
       [("volatility_score", JNum (py.round std_dev 3));
        ("mean_sentiment", JNum (py.round mean_sentiment 3));
        ("sentiment_history", JList (JNum <$> recent_sentiments));
        ("volatility_threshold", JNum 0.3)]]
  else [].

(** The weekly summaries of the channel for the past month, newest first. *)
Definition recent_weekly_summaries (today : Z) (channel_id : string)
    (db : Session) : list WeeklySummary.t :=
  let end_date := today in
  let start_date := (end_date - 30)%Z in
  order_by_week_start_desc
    (filter (fun w => of_channel channel_id w
                      ∧ (start_date ≤ WeeklySummary.week_start w)%Z)
       (weekly_summaries db)).

(** Generate various engagement insights for a channel. *)
Definition generate_engagement_insights (today : Z) (channel_id : string)
    (db : Session) : list Insight.t :=
  let weekly_summaries := recent_weekly_summaries today channel_id db in
  match weekly_summaries with
  | [] => []
  | _ =>
      match _check_engagement_spikes channel_id weekly_summaries with
      | None => []
      | Some spikes =>
          _check_burnout_patterns channel_id weekly_summaries
          ++ spikes
          ++ _check_participation_trends channel_id weekly_summaries
          ++ _check_sentiment_volatility channel_id weekly_summaries
      end
  end.

End battery.

(** One entry of the list [generate_channel_recommendations] builds. *)
Record Recommendation := mkRecommendation {
  rec_type : string;
  rec_title : string;
  rec_description : string;
  rec_urgency : string;
}.

(** The dictionary [generate_channel_recommendations] returns. *)
Inductive Recommendations :=
| NoData (error : string)
| Report (channel_id : string)
    (engagement_level : string) (avg_sentiment : Q) (burnout_flag : bool)
    (active_users : Z)
    (priority_level : string) (recommendations : list Recommendation)
    (generated_at : string).

Definition priority_level_of (r : Recommendations) : option string :=
  match r with
  | NoData _ => None
  | Report _ _ _ _ _ priority_level _ _ => Some priority_level
  end.

Section recommend.
(** [datetime.isoformat()] of a clock reading. *)
Variable isoformat : Z -> string.

(** Generate actionable recommendations for a specific channel. *)
Definition generate_channel_recommendations (now : Z) (channel_id : string)
    (db : Session) : Recommendations :=
  let recent_summary :=
    head (order_by_week_start_desc
            (filter (of_channel channel_id) (weekly_summaries db))) in
  match recent_summary with
  | None => NoData "No recent data available for recommendations"
  | Some recent_summary =>
      let recommendations := [] in
      let priority_level := "low" in
      let '(priority_level, recommendations) :=
        if WeeklySummary.burnout_flag recent_summary then
          ("high",
           recommendations ++
           [mkRecommendation "immediate_action" "Address Burnout Risk"
              "Schedule urgent team meeting to discuss workload and stress levels"
              "high"])
        else (priority_level, recommendations) in
      let '(priority_level, recommendations) :=
        if py.lt (WeeklySummary.avg_sentiment recent_summary) (-0.1) then
          (py.str_max priority_level "medium",
           recommendations ++
           [mkRecommendation "sentiment_improvement" "Improve Team Sentiment"
              "Consider team building activities or recognition programs"
              "medium"])
        else (priority_level, recommendations) in
      let recommendations :=
        if (WeeklySummary.active_user_count recent_summary <? 5)%Z then
          recommendations ++
          [mkRecommendation "engagement_boost" "Increase Participation"
             "Encourage more team members to actively participate in discussions"
             "medium"]
        else recommendations in
      let recommendations :=
        if String.eqb (WeeklySummary.engagement_level recent_summary) "High" then
          recommendations ++
          [mkRecommendation "maintain_momentum" "Maintain High Engagement"
             "Document current successful practices and continue them"
             "low"]
        else recommendations in
      Report channel_id
        (WeeklySummary.engagement_level recent_summary)
        (WeeklySummary.avg_sentiment recent_summary)
        (WeeklySummary.burnout_flag recent_summary)
        (WeeklySummary.active_user_count recent_summary)
        priority_level recommendations (isoformat now)
  end.

End recommend.

End insights.

(** ** The arithmetic of the scores on binary64 floats

    Where a property depends on how the scores are rounded, the functions
    are taken again with a Python [float] as the IEEE binary64 number it is:
    the same code, the same store, with the float columns as floats. *)

Module float64.

Definition lt (x y : float) : bool := PrimFloat.ltb x y.
Definition le (x y : float) : bool := PrimFloat.leb x y.
Definition gt (x y : float) : bool := PrimFloat.ltb y x.
Definition ge (x y : float) : bool := PrimFloat.leb y x.

(** [max(a, b)] and [min(a, b)]: the first argument unless the second is
    greater, respectively smaller. *)
Definition max (a b : float) : float := if gt b a then b else a.
Definition min (a b : float) : float := if lt b a then b else a.

(** [float(n)] of an [int]: the nearest float, exact below 2^53. *)
Definition of_int (n : Z) : float :=
  SF2Prim (binary_normalize prec emax n 0 false).

(** The exact value of a finite float. *)
Definition to_Q (x : float) : Q :=
  match Prim2SF x with
  | S754_finite s m e =>
      let v := inject_Z (Zpos m) * Qpower 2 e in if s then - v else v
  | _ => 0
  end.

Definition sign_bit (x : float) : bool :=
  match Prim2SF x with
  | S754_zero s | S754_infinity s | S754_finite s _ _ => s
  | S754_nan => false
  end.

(** [sum(xs)] by plain addition, left to right from 0.  CPython 3.12 and
    later compensate the rounding errors of the additions; for one or two
    floats the result is the same. *)
Definition sum_left (xs : list float) : float :=
  fold_left PrimFloat.add xs 0%float.

Definition len {A} (xs : list A) : float := of_int (Z.of_nat (length xs)).

(** [round(x, nd)]: the float nearest to the decimal with [nd] digits that
    is nearest to the exact value of [x], ties to even. *)
Definition round (x : float) (nd : nat) : float :=
  let scale := (10 ^ Z.of_nat nd)%Z in
  PrimFloat.div (of_int (py.round_half_even (to_Q x * inject_Z scale)))
    (of_int scale).

(** [f"{x:.2f}"] and, with [plus], [f"{x:+.2f}"], from the exact value. *)
Definition format_f (plus : bool) (nd : nat) (x : float) : string :=
  let scale := (10 ^ Z.of_nat nd)%Z in
  let r := py.round_half_even (Qabs (to_Q x) * inject_Z scale) in
  let sign := if sign_bit x then "-" else if plus then "+" else "" in
  let whole := pretty (r / scale)%Z in
  match nd with
  | O => sign +:+ whole
  | _ => sign +:+ whole +:+ "." +:+ py.pad_zeros nd (pretty (r mod scale)%Z)
  end.

(** *** app/models.py *)

Module Sentiment.
Record t := mk {
  channel_id : string;
  user_id : option string;
  message_ts : string;
  text_content : string;
  sentiment_score : float;
  confidence : float;
  emoji_boost : float;
  reaction_boost : float;
  final_score : float;
  analysis_date : Z;
}.
End Sentiment.

Module WeeklySummary.
Record t := mk {
  channel_id : string;
  week_start : Z;
  week_end : Z;
  message_count : Z;
  avg_sentiment : float;
  sentiment_trend : float;
  burnout_flag : bool;
  engagement_level : string;
  top_topics : list string;
  active_user_count : Z;
}.
End WeeklySummary.

#[warnings="-register-all"]
Inductive json :=
| JInt (n : Z)
| JNum (x : float)
| JStr (s : string)
| JList (xs : list json).

Module Insight.
Record t := mk {
  channel_id : string;
  insight_type : string;
  title : string;
  description : string;
  severity : string;
  actionable : bool;
  recommendation : string;
  data_source : list (string * json);
  is_active : bool;
  created_at : option Z;
}.
End Insight.

Record Session := mkSession {
  sentiments : list Sentiment.t;
  weekly_summaries : list WeeklySummary.t;
  insights : list Insight.t;
}.

Definition add_weekly (w : WeeklySummary.t) (db : Session) : Session :=
  mkSession (sentiments db) (weekly_summaries db ++ [w]) (insights db).

Definition add_insight (now : Z) (i : Insight.t) (db : Session) : Session :=
  let row := Insight.mk (Insight.channel_id i) (Insight.insight_type i)
               (Insight.title i) (Insight.description i) (Insight.severity i)
               (Insight.actionable i) (Insight.recommendation i)
               (Insight.data_source i) (Insight.is_active i) (Some now) in
  mkSession (sentiments db) (weekly_summaries db) (insights db ++ [row]).

(** *** app/sentiment.py: reactions *)

Definition REACTION_SCORES : gmap string float := list_to_map
  [ ("thumbsup", 0.5%float); ("+1", 0.5%float); ("thumbsdown", (-0.5)%float);
    ("-1", (-0.5)%float); ("fire", 0.4%float); ("heart", 0.6%float);
    ("tada", 0.5%float); ("100", 0.6%float); ("rocket", 0.4%float);
    ("star", 0.4%float); ("eyes", 0.1%float); ("thinking_face", 0.0%float);
    ("x", (-0.3)%float); ("warning", (-0.2)%float); ("bug", (-0.2)%float);
    ("coffee", 0.2%float); ("pizza", 0.3%float) ].

Definition is_message (message_ts channel_id : string) (s : Sentiment.t) : bool :=
  String.eqb (Sentiment.message_ts s) message_ts
  && String.eqb (Sentiment.channel_id s) channel_id.

(** The assignments of [update_sentiment_with_reaction] to the row found. *)
Definition apply_reaction (reaction_score : float) (s : Sentiment.t)
    : Sentiment.t :=
  let reaction_boost :=
    PrimFloat.add (Sentiment.reaction_boost s) reaction_score in
  let final_score :=
    PrimFloat.add
      (PrimFloat.add (Sentiment.sentiment_score s) (Sentiment.emoji_boost s))
      reaction_boost in
  let final_score := min (max final_score (-1.0)%float) 1.0%float in
  Sentiment.mk (Sentiment.channel_id s) (Sentiment.user_id s)
    (Sentiment.message_ts s) (Sentiment.text_content s)
    (Sentiment.sentiment_score s) (Sentiment.confidence s)
    (Sentiment.emoji_boost s) reaction_boost final_score
    (Sentiment.analysis_date s).

(** Update existing sentiment with reaction data. *)
Definition update_sentiment_with_reaction
    (message_ts channel_id reaction : string) (modifier : Z) (db : Session)
    : bool * Session :=
  let sentiment := find (is_message message_ts channel_id) (sentiments db) in
  match sentiment with
  | None => (false, db)
  | Some _ =>
      let reaction_score :=
        PrimFloat.mul (default 0.0%float (REACTION_SCORES !! reaction))
          (of_int modifier) in
      (true,
       mkSession
         (update_first (is_message message_ts channel_id)
            (apply_reaction reaction_score) (sentiments db))
         (weekly_summaries db) (insights db))
  end.

(** *** app/aggregator.py: weekly summaries *)

Record Config := mkConfig {
  SENTIMENT_THRESHOLD_NEGATIVE : float;
  BURNOUT_DELTA_THRESHOLD : float;
}.

Definition default_config : Config := mkConfig (-0.1)%float (-0.2)%float.

Section summaries.
Variable cfg : Config.
(** The builtin [sum] on a list of floats. *)
Variable sum : list float -> float.
(** [date.isoformat()] of an ordinal day. *)
Variable isoformat : Z -> string.

Definition sentiments_between (channel_id : string) (first last : Z)
    (db : Session) : list Sentiment.t :=
  filter
    (fun s => String.eqb (Sentiment.channel_id s) channel_id = true
              ∧ (first ≤ Sentiment.analysis_date s)%Z
              ∧ (Sentiment.analysis_date s ≤ last)%Z)
    (sentiments db).

Definition is_recent_burnout_alert (channel_id : string) (now : Z)
    (i : Insight.t) : bool :=
  String.eqb (Insight.channel_id i) channel_id
  && String.eqb (Insight.insight_type i) "burnout_alert"
  && Insight.is_active i
  && match Insight.created_at i with
     | Some created_at => (now - aggregator.seven_days <=? created_at)%Z
     | None => false
     end.

(** Generate burnout warning insight. *)
Definition generate_burnout_insight (now : Z) (channel_id : string)
    (weekly_summary : WeeklySummary.t) (db : Session) : Session :=
  let recent_insight := find (is_recent_burnout_alert channel_id now) (insights db) in
  match recent_insight with
  | Some _ => db
  | None =>
      let avg_sentiment := WeeklySummary.avg_sentiment weekly_summary in
      let sentiment_trend := WeeklySummary.sentiment_trend weekly_summary in
      let '(severity, title) :=
        if le avg_sentiment (-0.3)%float || le sentiment_trend (-0.3)%float
        then ("critical", "Critical Team Burnout Detected")
        else if le avg_sentiment (-0.2)%float
                || le sentiment_trend (-0.25)%float
        then ("high", "High Risk of Team Burnout")
        else ("medium", "Team Sentiment Declining") in
      let description :=
        "Team sentiment in this channel has declined significantly. "
        +:+ "Current average sentiment: " +:+ format_f false 2 avg_sentiment
        +:+ ", trend over past week: " +:+ format_f true 2 sentiment_trend
        +:+ ". Engagement level: "
        +:+ WeeklySummary.engagement_level weekly_summary +:+ "." in
      let recommendations :=
        (if le avg_sentiment (-0.2)%float
         then ["Schedule a team check-in to discuss workload and stress levels"]
         else [])
        ++ (if le sentiment_trend (-0.25)%float
            then ["Investigate recent changes that may have impacted team morale"]
            else [])
        ++ (if (WeeklySummary.active_user_count weekly_summary <? 5)%Z
            then ["Low participation detected - consider improving team engagement"]
            else []) in
      let recommendation :=
        match recommendations with
        | [] => "Monitor closely and consider team intervention"
        | _ => String.concat ". " recommendations
        end in
      let insight :=
        Insight.mk channel_id "burnout_alert" title description severity true
          recommendation
          [("avg_sentiment", JNum avg_sentiment);
           ("sentiment_trend", JNum sentiment_trend);
           ("message_count", JInt (WeeklySummary.message_count weekly_summary));
           ("active_user_count",
            JInt (WeeklySummary.active_user_count weekly_summary));
           ("week_start", JStr (isoformat (WeeklySummary.week_start weekly_summary)));
           ("week_end", JStr (isoformat (WeeklySummary.week_end weekly_summary)))]
          true None in
      add_insight now insight db
  end.

Definition unique_users (sentiments : list Sentiment.t) : gset string :=
  list_to_set
    (omap (fun s => match Sentiment.user_id s with
                    | Some u => if py.truthy u then Some u else None
                    | None => None
                    end) sentiments).

(** Create weekly summary for a specific channel and week. *)
Definition create_weekly_summary (now : Z) (channel_id : string) (week_start : Z)
    (db : Session) : option WeeklySummary.t * Session :=
  let week_end := (week_start + 6)%Z in
  let existing :=
    find (fun w => String.eqb (WeeklySummary.channel_id w) channel_id
                   && (WeeklySummary.week_start w =? week_start)%Z)
         (weekly_summaries db) in
  match existing with
  | Some existing => (Some existing, db)
  | None =>
      let sentiments := sentiments_between channel_id week_start week_end db in
      match sentiments with
      | [] => (None, db)
      | _ =>
          let scores := Sentiment.final_score <$> sentiments in
          let avg_sentiment := PrimFloat.div (sum scores) (len scores) in
          let prev_week_start := (week_start - 7)%Z in
          let prev_week_end := (prev_week_start + 6)%Z in
          let prev_week_sentiments :=
            sentiments_between channel_id prev_week_start prev_week_end db in
          let sentiment_trend :=
            match prev_week_sentiments with
            | [] => 0.0%float
            | _ =>
                let prev_scores := Sentiment.final_score <$> prev_week_sentiments in
                let prev_avg := PrimFloat.div (sum prev_scores) (len prev_scores) in
                PrimFloat.sub avg_sentiment prev_avg
            end in
          let burnout_flag :=
            le sentiment_trend (BURNOUT_DELTA_THRESHOLD cfg)
            || le avg_sentiment (SENTIMENT_THRESHOLD_NEGATIVE cfg) in
          let engagement_level :=
            if ge avg_sentiment 0.3%float then "High"
            else if ge avg_sentiment 0.1%float then "Medium"
            else if ge avg_sentiment (-0.1)%float then "Low"
            else "Critical" in
          let active_user_count := Z.of_nat (size (unique_users sentiments)) in
          let top_topics :=
            ["deployment"; "code review"; "bug fix"; "planning"; "team meeting"] in
          let summary :=
            WeeklySummary.mk channel_id week_start week_end
              (Z.of_nat (length sentiments))
              (round avg_sentiment 3) (round sentiment_trend 3)
              burnout_flag engagement_level top_topics active_user_count in
          let db := add_weekly summary db in
          let db :=
            if burnout_flag
            then generate_burnout_insight now channel_id summary db
            else db in
          (Some summary, db)
      end
  end.

End summaries.

(** *** app/insights.py: engagement spikes *)

Definition new_insight (channel_id insight_type title description severity
    recommendation : string) (data_source : list (string * json)) : Insight.t :=
  Insight.mk channel_id insight_type title description severity true
    recommendation data_source true None.

Definition active_counts (ws : list WeeklySummary.t) : list Z :=
  WeeklySummary.active_user_count <$> ws.

(** Check for positive engagement spikes worth celebrating.  [None] is the
    [ZeroDivisionError] of the percentage above a zero average.  Head
    counts are below 2^53, so that they divide and compare as floats. *)
Definition _check_engagement_spikes (channel_id : string)
    (weekly_summaries : list WeeklySummary.t) : option (list Insight.t) :=
  if (length weekly_summaries <? 2)%nat then Some [] else
  match weekly_summaries with
  | recent_week :: previous_week :: _ =>
      let insights :=
        if gt (WeeklySummary.avg_sentiment recent_week) 0.3%float then
          let sentiment_improvement :=
            PrimFloat.sub (WeeklySummary.avg_sentiment recent_week)
              (WeeklySummary.avg_sentiment previous_week) in
          if gt sentiment_improvement 0.2%float then
            [new_insight channel_id "engagement_spike"
               "Exceptional Team Morale Boost"
               ("Team sentiment has improved significantly by "
                +:+ format_f true 2 sentiment_improvement
                +:+ " points this week! " +:+ "Current sentiment: "
                +:+ format_f false 2 (WeeklySummary.avg_sentiment recent_week))
               "low"
               "Identify and document what contributed to this positive change to replicate success."
               [("sentiment_improvement", JNum sentiment_improvement);
                ("current_sentiment",
                 JNum (WeeklySummary.avg_sentiment recent_week));
                ("previous_sentiment",
                 JNum (WeeklySummary.avg_sentiment previous_week))]]
          else []
        else [] in
      let current := WeeklySummary.active_user_count recent_week in
      if (10 <? current)%Z then
        let avg_participation :=
          PrimFloat.div
            (of_int (py.sumZ (active_counts (take 4 weekly_summaries))))
            (of_int (Z.of_nat (Nat.min (length weekly_summaries) 4))) in
        if gt (of_int current) (PrimFloat.mul avg_participation 1.3%float) then
          if PrimFloat.eqb avg_participation 0.0%float then None else
          let above :=
            PrimFloat.mul
              (PrimFloat.sub (PrimFloat.div (of_int current) avg_participation)
                 1.0%float)
              100.0%float in
          Some (insights ++
            [new_insight channel_id "high_participation"
               "Exceptional Team Participation"
               ("Team participation reached " +:+ pretty current
                +:+ " active users this week, "
                +:+ format_f false 0 above +:+ "% above average.")
               "low"
               "Celebrate this engagement! Consider what factors contributed to high participation."
               [("current_participation", JInt current);
                ("average_participation", JNum (round avg_participation 1));
                ("improvement_percentage", JNum (round above 1))]])
        else Some insights
      else Some insights
  | _ => Some []
  end.

End float64.

(** ** Observations and scenarios used by the statements below *)

(** A stream of calls against the store, as the event handlers issue them:
    messages to score and reactions added ([modifier] 1) or removed (-1). *)
Inductive call :=
| Message (today : Z) (event_body : gmap string (gmap string string))
| Reaction (message_ts channel_id reaction : string) (modifier : Z).

Definition run_call (lib : sentiment.Libs) (db : Session) (c : call) : Session :=
  match c with
  | Message today event_body => (sentiment.score_event lib today event_body db).2
  | Reaction message_ts channel_id reaction modifier =>
      (sentiment.update_sentiment_with_reaction
         message_ts channel_id reaction modifier db).2
  end.

Definition run_calls (lib : sentiment.Libs) (cs : list call) (db : Session)
    : Session :=
  fold_left (run_call lib) cs db.

(** The stored row of a message. *)
Definition stored (message_ts channel_id : string) (db : Session)
    : option Sentiment.t :=
  find (sentiment.is_message message_ts channel_id) (sentiments db).

Definition in_unit_interval (x : Q) : Prop := -1 <= x /\ x <= 1.

(** Kind and severity of each insight of a list. *)
Definition kinds (l : list Insight.t) : list (string * string) :=
  (fun i => (Insight.insight_type i, Insight.severity i)) <$> l.

(** A message event as the Slack handler receives it. *)
Definition message_event (fields : list (string * string))
    : gmap string (gmap string string) :=
  {[ "event" := list_to_map (("type", "message") :: fields) ]}.

(** An environment in which the analyser finds the text neutral and reports
    its scores under the keys [score_event] reads, and in which no emoji and
    no markup is found. *)
Definition plain_lib : sentiment.Libs :=
  sentiment.mkLibs (fun _ _ => []) (fun _ _ text => text) true (fun _ => [])
    (fun _ => list_to_map
                [("compound", 0.0); ("positive", 0.0); ("neutral", 1.0);
                 ("negative", 0.0)]).

(** A weekly summary with the given week, mean, flag, level and head count. *)
Definition week (channel_id : string) (week_start : Z) (avg_sentiment : Q)
    (burnout_flag : bool) (engagement_level : string) (active_user_count : Z)
    : WeeklySummary.t :=
  WeeklySummary.mk channel_id week_start (week_start + 6) 10 avg_sentiment 0
    burnout_flag engagement_level [] active_user_count.

(** A stored row with the given date and final score. *)
Definition row (channel_id message_ts : string) (analysis_date : Z)
    (final_score : Q) : Sentiment.t :=
  Sentiment.mk channel_id (Some "U1") message_ts "" final_score 0 0 0
    final_score analysis_date.

(** A store holding one message of the week starting on day 8, and one
    holding a message of the week before as well. *)
Definition one_message_week (final_score : Q) : Session :=
  mkSession [row "C1" "1.0" 10 final_score] [] [].

Definition two_message_weeks (previous_score final_score : Q) : Session :=
  mkSession [row "C1" "0.5" 3 previous_score; row "C1" "1.0" 10 final_score] [] [].

(** The active [burnout_alert] insights of a channel. *)
Definition is_active_burnout_alert (channel_id : string) (i : Insight.t) : bool :=
  String.eqb (Insight.channel_id i) channel_id
  && String.eqb (Insight.insight_type i) "burnout_alert"
  && Insight.is_active i.

Definition active_burnout_alerts (channel_id : string) (db : Session)
    : list Insight.t :=
  List.filter (is_active_burnout_alert channel_id) (insights db).

(** Three weekly summaries of one channel, stored oldest last, whose head
    counts fall from 9 to 7 to 4 as the weeks go by. *)
Definition shrinking_channel : Session :=
  mkSession []
    [week "C1" 21 0 false "Low" 4; week "C1" 7 0 false "Low" 9;
     week "C1" 14 0 false "Low" 7] [].

(** An environment in which the analyser reports its scores under NLTK's
    keys ([neg], [neu], [pos], [compound]). *)
Definition nltk_lib : sentiment.Libs :=
  sentiment.mkLibs (fun _ _ => []) (fun _ _ text => text) true (fun _ => [])
    (fun _ => list_to_map
                [("neg", 0.0); ("neu", 1.0); ("pos", 0.0); ("compound", 0.0)]).

(** The same observations on the store with float columns. *)
Definition stored64 (message_ts channel_id : string) (db : float64.Session)
    : option float64.Sentiment.t :=
  find (float64.is_message message_ts channel_id) (float64.sentiments db).

Definition run_call64 (db : float64.Session) (c : call) : float64.Session :=
  match c with
  | Message _ _ => db
  | Reaction message_ts channel_id reaction modifier =>
      (float64.update_sentiment_with_reaction
         message_ts channel_id reaction modifier db).2
  end.

Definition run_reactions64 (cs : list call) (db : float64.Session)
    : float64.Session :=
  fold_left run_call64 cs db.


Definition row64 (channel_id message_ts : string) (analysis_date : Z)
    (final_score : float) : float64.Sentiment.t :=
  float64.Sentiment.mk channel_id (Some "U1") message_ts "" final_score
    0.0%float 0.0%float 0.0%float final_score analysis_date.


(** Stores holding the messages of the week starting on day 8, and of the
    week before, with the given final scores. *)
Definition weeks64 (previous current : list float) : float64.Session :=
  float64.mkSession
    ((row64 "C1" "0.5" 3 <$> previous) ++ (row64 "C1" "1.0" 10 <$> current))
    [] [].

(** Mean and trend as [create_weekly_summary] computes them: the sum of the
    week's final scores divided by their number, and that mean minus the
    mean of the seven days before, or 0 without rows there. *)
Definition week_mean64 (sum : list float -> float) (channel_id : string)
    (week_start : Z) (db : float64.Session) : float :=
  let scores :=
    float64.Sentiment.final_score
    <$> float64.sentiments_between channel_id week_start (week_start + 6) db in
  PrimFloat.div (sum scores) (float64.len scores).

Definition week_trend64 (sum : list float -> float) (channel_id : string)
    (week_start : Z) (db : float64.Session) : float :=
  match float64.sentiments_between channel_id
          (week_start - 7) (week_start - 7 + 6) db with
  | [] => 0.0%float
  | _ => PrimFloat.sub (week_mean64 sum channel_id week_start db)
           (week_mean64 sum channel_id (week_start - 7) db)
  end.

Definition has_weekly_summary64 (channel_id : string) (week_start : Z)
    (db : float64.Session) : bool :=
  existsb (fun w => String.eqb (float64.WeeklySummary.channel_id w) channel_id
                    && (float64.WeeklySummary.week_start w =? week_start)%Z)
    (float64.weekly_summaries db).

Definition has_weekly_summary (channel_id : string) (week_start : Z)
    (db : Session) : bool :=
  existsb (fun w => String.eqb (WeeklySummary.channel_id w) channel_id
                    && (WeeklySummary.week_start w =? week_start)%Z)
    (weekly_summaries db).

(** ** Comparisons and clamping *)

Lemma lt_spec x y : py.lt x y = true <-> x < y.
Proof.
  unfold py.lt. rewrite negb_true_iff, <- not_true_iff_false, Qle_bool_iff.
  split; [apply Qnot_le_lt | apply Qlt_not_le].
Qed.

Lemma le_spec x y : py.le x y = true <-> x <= y.
Proof. apply Qle_bool_iff. Qed.

Lemma gt_spec x y : py.gt x y = true <-> y < x.
Proof. apply lt_spec. Qed.

Lemma ge_spec x y : py.ge x y = true <-> y <= x.
Proof. apply le_spec. Qed.

Lemma lt_false x y : py.lt x y = false <-> y <= x.
Proof.
  unfold py.lt. rewrite negb_false_iff. apply Qle_bool_iff.
Qed.

(** Case analysis on a comparison, with its meaning as hypothesis. *)
Ltac case_lt a b :=
  let E := fresh "E" in
  destruct (py.lt a b) eqn:E; [apply lt_spec in E | apply lt_false in E].

Lemma le_false x y : py.le x y = false <-> y < x.
Proof.
  unfold py.le. rewrite <- not_true_iff_false, Qle_bool_iff.
  split; [apply Qnot_le_lt | apply Qlt_not_le].
Qed.

Ltac case_le a b :=
  let E := fresh "E" in
  destruct (py.le a b) eqn:E; [apply le_spec in E | apply le_false in E].

Lemma clamp_bounds lo hi x :
  lo <= hi -> lo <= py.min (py.max x lo) hi /\ py.min (py.max x lo) hi <= hi.
Proof.
  intros Hlh. unfold py.min, py.max, py.gt.
  destruct (py.lt x lo) eqn:E1; destruct (py.lt hi _) eqn:E2;
    rewrite ?lt_spec, ?lt_false in *; split; lra.
Qed.

Lemma clamp_id lo hi x :
  lo <= x -> x <= hi -> py.min (py.max x lo) hi == x.
Proof.
  intros H1 H2. unfold py.min, py.max, py.gt.
  destruct (py.lt x lo) eqn:E1; destruct (py.lt hi _) eqn:E2;
    rewrite ?lt_spec, ?lt_false in *; lra.
Qed.

(** ** Rows of the store under scoring and reactions *)

Lemma find_app_none {A} (p : A -> bool) l x :
  find p l = None -> find p (l ++ [x]) = if p x then Some x else None.
Proof.
  induction l as [|y l IH]; simpl; [reflexivity|].
  destruct (p y); [discriminate | exact IH].
Qed.

Lemma find_app_some {A} (p : A -> bool) l x y :
  find p l = Some y -> find p (l ++ [x]) = Some y.
Proof.
  induction l as [|z l IH]; simpl; [discriminate|].
  destruct (p z); [trivial | exact IH].
Qed.

(** Rewriting the first row matched by [q] leaves the first row matched by
    [p] in place, possibly rewritten, when the rewrite keeps [p]. *)
Lemma find_update_first {A} (p q : A -> bool) (f : A -> A) l x :
  (forall y, p (f y) = p y) ->
  find p l = Some x ->
  find p (update_first q f l) = Some x
  \/ (q x = true /\ find p (update_first q f l) = Some (f x)).
Proof.
  intros Hp. induction l as [|y l IH]; simpl; [discriminate|].
  destruct (p y) eqn:Epy.
  - intros [= ->]. destruct (q x) eqn:Eq; simpl.
    + right. rewrite Hp, Epy. auto.
    + left. rewrite Epy. reflexivity.
  - intros Hx. destruct (q y) eqn:Eq; simpl.
    + left. rewrite Hp, Epy. exact Hx.
    + rewrite Epy. apply IH, Hx.
Qed.

Lemma apply_reaction_in_range q s :
  in_unit_interval (Sentiment.final_score (sentiment.apply_reaction q s)).
Proof.
  unfold sentiment.apply_reaction, in_unit_interval; simpl.
  match goal with
  | |- context [py.max ?x _] => destruct (clamp_bounds (-1.0) 1.0 x); lra
  end.
Qed.

Lemma apply_reaction_is_message ts ch q s :
  sentiment.is_message ts ch (sentiment.apply_reaction q s)
  = sentiment.is_message ts ch s.
Proof. reflexivity. Qed.

Lemma reaction_keeps_range ts ch reaction modifier ts0 ch0 db r :
  stored ts0 ch0 db = Some r ->
  in_unit_interval (Sentiment.final_score r) ->
  exists r',
    stored ts0 ch0
      (sentiment.update_sentiment_with_reaction ts ch reaction modifier db).2
    = Some r'
    /\ in_unit_interval (Sentiment.final_score r').
Proof.
  intros Hst Hr. unfold sentiment.update_sentiment_with_reaction.
  destruct (find _ _); cbn [snd]; [|eauto].
  unfold stored in *; cbn [sentiments].
  destruct (find_update_first (sentiment.is_message ts0 ch0)
              (sentiment.is_message ts ch)
              (sentiment.apply_reaction
                 (default 0.0 (sentiment.REACTION_SCORES !! reaction)
                  * inject_Z modifier))
              (sentiments db) r) as [H | [_ H]];
    [intros; apply apply_reaction_is_message | exact Hst | | ];
    rewrite H; eauto using apply_reaction_in_range.
Qed.

(** What [score_event] does to the store: nothing, or one more row. *)
Lemma score_event_store lib today event_body db :
  (sentiment.score_event lib today event_body db).2 = db
  \/ exists r, sentiment.score_event lib today event_body db
               = (Some r, add_sentiment r db).
Proof.
  unfold sentiment.score_event.
  destruct (negb _); [left; reflexivity|].
  destruct (_ !! "channel") as [ch|]; [|left; reflexivity].
  destruct (_ !! "user") as [u|]; [|left; reflexivity].
  destruct (_ !! "ts") as [ts|]; [|left; reflexivity].
  destruct (negb _); [left; reflexivity|].
  destruct (find _ _); [left; reflexivity|].
  unfold sentiment.score_new.
  destruct (_ !! "compound"); simpl; [|left; reflexivity].
  destruct (_ !! "positive"); simpl; [|left; reflexivity].
  destruct (_ !! "negative"); simpl; [|left; reflexivity].
  right. eauto.
Qed.

Lemma score_event_keeps_stored lib today event_body db ts ch r :
  stored ts ch db = Some r ->
  stored ts ch (sentiment.score_event lib today event_body db).2 = Some r.
Proof.
  intros Hst.
  destruct (score_event_store lib today event_body db) as [-> | [r' ->]];
    [exact Hst|].
  unfold stored; simpl. apply find_app_some, Hst.
Qed.

Lemma run_calls_keep_range lib cs : forall db ts ch r,
  stored ts ch db = Some r ->
  in_unit_interval (Sentiment.final_score r) ->
  exists r', stored ts ch (run_calls lib cs db) = Some r'
             /\ in_unit_interval (Sentiment.final_score r').
Proof.
  induction cs as [|c cs IH]; intros db ts ch r Hst Hr; simpl; [eauto|].
  destruct c as [today ev | mts mch reaction modifier]; simpl.
  - eapply IH; [apply score_event_keeps_stored, Hst | exact Hr].
  - destruct (reaction_keeps_range mts mch reaction modifier ts ch db r Hst Hr)
      as (r' & Hst' & Hr').
    eapply IH; eassumption.
Qed.

Lemma is_message_eq ts ch s :
  sentiment.is_message ts ch s = true
  <-> Sentiment.message_ts s = ts /\ Sentiment.channel_id s = ch.
Proof.
  unfold sentiment.is_message.
  rewrite andb_true_iff, !String.eqb_eq. reflexivity.
Qed.

(** A message scored for the first time: one row is appended, with no
    reaction boost yet and the clamped sum of the text score, the emoji
    boost and the keyword modifier of the text as final score. *)
Lemma score_event_fresh lib today event_body db r db1 :
  sentiment.score_event lib today event_body db = (Some r, db1) ->
  stored (Sentiment.message_ts r) (Sentiment.channel_id r) db = None ->
  db1 = add_sentiment r db
  /\ Sentiment.reaction_boost r = 0.0
  /\ Sentiment.final_score r
     = py.min
         (py.max
            (Sentiment.sentiment_score r + Sentiment.emoji_boost r
             + sentiment.calculate_keyword_sentiment
                 (default "" (default ∅ (event_body !! "event") !! "text")))
            (-1.0)) 1.0.
Proof.
  unfold sentiment.score_event.
  destruct (negb _); [discriminate|].
  destruct (_ !! "channel") as [ch|]; [|discriminate].
  destruct (_ !! "user") as [u|]; [|discriminate].
  destruct (_ !! "ts") as [ts|]; [|discriminate].
  destruct (negb _); [discriminate|].
  destruct (find _ _) as [existing|] eqn:Efind.
  - intros [= -> ->] Hnone. exfalso.
    destruct (find_some _ _ Efind) as [_ Hkey].
    apply is_message_eq in Hkey as [<- <-].
    unfold stored in Hnone. congruence.
  - unfold sentiment.score_new.
    destruct (_ !! "compound") as [base|]; simpl; [|discriminate].
    destruct (_ !! "positive") as [pos|]; simpl; [|discriminate].
    destruct (_ !! "negative") as [neg|]; simpl; [|discriminate].
    intros [= <- <-] _. simpl. auto.
Qed.

Lemma score_event_fresh_in_range lib today event_body db r db1 :
  sentiment.score_event lib today event_body db = (Some r, db1) ->
  stored (Sentiment.message_ts r) (Sentiment.channel_id r) db = None ->
  stored (Sentiment.message_ts r) (Sentiment.channel_id r) db1 = Some r
  /\ in_unit_interval (Sentiment.final_score r).
Proof.
  intros Hscore Hnone.
  destruct (score_event_fresh _ _ _ _ _ _ Hscore Hnone) as (-> & _ & Hfinal).
  split.
  - unfold stored; simpl. rewrite (find_app_none _ _ _ Hnone).
    replace (sentiment.is_message _ _ r) with true; [reflexivity|].
    symmetry. apply is_message_eq. auto.
  - rewrite Hfinal. unfold in_unit_interval.
    match goal with
    | |- context [py.max ?x _] => destruct (clamp_bounds (-1.0) 1.0 x); lra
    end.
Qed.

(** C8. Once a message event has been scored, whatever calls follow
    (reactions of any name, direction and number, on this message or on
    others, and further messages), the final score stored for the message
    lies in [-1, 1]. *)
Theorem final_score_always_in_range lib today event_body db r db1 cs :
  sentiment.score_event lib today event_body db = (Some r, db1) ->
  stored (Sentiment.message_ts r) (Sentiment.channel_id r) db = None ->
  exists r',
    stored (Sentiment.message_ts r) (Sentiment.channel_id r)
      (run_calls lib cs db1) = Some r'
    /\ in_unit_interval (Sentiment.final_score r').
Proof.
  intros Hscore Hnone.
  destruct (score_event_fresh_in_range _ _ _ _ _ _ Hscore Hnone) as [Hst Hr].
  eapply run_calls_keep_range; eassumption.
Qed.

Lemma final_score_always_in_range_witness :
  exists r db1,
    sentiment.score_event plain_lib 10
      (message_event [("channel", "C1"); ("user", "U1"); ("ts", "1.0");
                      ("text", "burnout, overwhelmed, outage :sob:")])
      empty_db = (Some r, db1)
    /\ exists r',
         stored (Sentiment.message_ts r) (Sentiment.channel_id r)
           (run_calls plain_lib
              [Reaction "1.0" "C1" "thumbsdown" 1; Reaction "1.0" "C1" "x" 1;
               Reaction "1.0" "C1" "thumbsdown" 1; Reaction "1.0" "C1" "heart" (-1)]
              db1) = Some r'
         /\ in_unit_interval (Sentiment.final_score r').
Proof.
  eexists; eexists; split; [vm_compute; reflexivity|].
  apply (final_score_always_in_range plain_lib 10
           (message_event [("channel", "C1"); ("user", "U1"); ("ts", "1.0");
                           ("text", "burnout, overwhelmed, outage :sob:")])
           empty_db);
    vm_compute; reflexivity.
Defined.

(** ** Adding a reaction and removing it again *)

Lemma clamp_proper lo hi x y :
  x == y -> py.min (py.max x lo) hi == py.min (py.max y lo) hi.
Proof.
  intros Hxy. unfold py.min, py.max, py.gt.
  case_lt x lo; case_lt y lo;
    repeat match goal with
           | |- context [py.lt ?a ?b] => case_lt a b
           end; lra.
Qed.

Lemma find_update_first_same {A} (p : A -> bool) (f : A -> A) l x :
  (forall y, p (f y) = p y) ->
  find p l = Some x ->
  find p (update_first p f l) = Some (f x).
Proof.
  intros Hp. induction l as [|y l IH]; simpl; [discriminate|].
  destruct (p y) eqn:Epy; simpl.
  - intros [= ->]. rewrite Hp, Epy. reflexivity.
  - rewrite Epy. exact IH.
Qed.

(** ** Events with missing fields *)

Lemma analyze_blank_text lib :
  sentiment.analyze_text_sentiment lib ""
  = list_to_map
      [("compound", 0.0); ("positive", 0.0); ("neutral", 1.0); ("negative", 0.0)].
Proof. reflexivity. Qed.

(** An event whose text is missing, all else in place and not yet stored, is
    scored as the empty text. *)
Lemma score_event_without_text lib today event_body db ch u ts :
  let event := default ∅ (event_body !! "event") in
  event !! "type" = Some "message" ->
  event !! "channel" = Some ch -> event !! "user" = Some u ->
  event !! "ts" = Some ts ->
  ch <> "" -> u <> "" -> ts <> "" ->
  event !! "text" = None ->
  stored ts ch db = None ->
  exists r,
    sentiment.score_event lib today event_body db = (Some r, add_sentiment r db)
    /\ Sentiment.text_content r = ""
    /\ Sentiment.sentiment_score r = 0.0.
Proof.
  intros event Hty Hch Hu Hts Nch Nu Nts Htext Hnone.
  unfold sentiment.score_event. fold event.
  rewrite Hty, Hch, Hu, Hts, Htext.
  rewrite bool_decide_eq_true_2 by reflexivity. simpl negb at 1. cbv iota.
  replace (forallb py.truthy [ch; u; ts]) with true.
  2:{ symmetry. simpl. unfold py.truthy.
      rewrite !andb_true_iff, !negb_true_iff, !String.eqb_neq. auto. }
  simpl negb. cbv iota.
  unfold stored in Hnone. rewrite Hnone.
  unfold sentiment.score_new. rewrite analyze_blank_text.
  replace ((list_to_map
              [("compound", 0.0); ("positive", 0.0); ("neutral", 1.0);
               ("negative", 0.0)] : gmap string Q) !! "compound")
    with (Some 0.0) by (vm_compute; reflexivity).
  replace ((list_to_map
              [("compound", 0.0); ("positive", 0.0); ("neutral", 1.0);
               ("negative", 0.0)] : gmap string Q) !! "positive")
    with (Some 0.0) by (vm_compute; reflexivity).
  replace ((list_to_map
              [("compound", 0.0); ("positive", 0.0); ("neutral", 1.0);
               ("negative", 0.0)] : gmap string Q) !! "negative")
    with (Some 0.0) by (vm_compute; reflexivity).
  simpl. eexists. split; [reflexivity|]. split; reflexivity.
Qed.

(** C5, as stated, fails: a message event with channel, user and timestamp
    but no text is scored, and its row is stored. *)
Lemma message_without_text_is_scored :
  default ∅ (message_event [("channel", "C1"); ("user", "U1"); ("ts", "1.0")]
               !! "event") !! "text" = None
  /\ exists r,
       sentiment.score_event plain_lib 10
         (message_event [("channel", "C1"); ("user", "U1"); ("ts", "1.0")])
         empty_db
       = (Some r, add_sentiment r empty_db)
       /\ sentiments (add_sentiment r empty_db) = [r].
Proof.
  split; [vm_compute; reflexivity|].
  eexists. split; [vm_compute; reflexivity | reflexivity].
Qed.

(** C5, amended.  A message event that lacks its channel id, its user id or
    its timestamp is not scored: [score_event] returns nothing and the store
    is as before.  A missing text is no reason to skip: it is read as the
    empty text, and the event is scored and stored. *)
Theorem score_event_skips_missing_essentials lib today event_body db :
  let event := default ∅ (event_body !! "event") in
  (event !! "channel" = None \/ event !! "user" = None \/ event !! "ts" = None
   -> sentiment.score_event lib today event_body db = (None, db))
  /\ (forall ch u ts,
        event !! "type" = Some "message" ->
        event !! "channel" = Some ch -> event !! "user" = Some u ->
        event !! "ts" = Some ts ->
        ch <> "" -> u <> "" -> ts <> "" ->
        event !! "text" = None ->
        stored ts ch db = None ->
        exists r,
          sentiment.score_event lib today event_body db
          = (Some r, add_sentiment r db)
          /\ Sentiment.text_content r = "").
Proof.
  intros event. split.
  - intros Hmiss. unfold sentiment.score_event. fold event.
    destruct (negb _); [reflexivity|].
    destruct (event !! "channel"), (event !! "user"), (event !! "ts");
      try reflexivity.
    destruct Hmiss as [H | [H | H]]; discriminate.
  - intros ch u ts Hty Hch Hu Hts Nch Nu Nts Htext Hnone.
    destruct (score_event_without_text lib today event_body db ch u ts)
      as (r & Hr & Htc & _); auto.
    exists r. auto.
Qed.

Lemma score_event_skips_missing_essentials_witness :
  sentiment.score_event plain_lib 10
    (message_event [("channel", "C1"); ("ts", "1.0"); ("text", "shipped!")])
    empty_db = (None, empty_db).
Proof.
  apply (score_event_skips_missing_essentials plain_lib 10
           (message_event [("channel", "C1"); ("ts", "1.0"); ("text", "shipped!")])
           empty_db).
  right; left. vm_compute. reflexivity.
Defined.

(** ** Weekly summaries *)

Lemma existsb_false_find {A} (p : A -> bool) l :
  existsb p l = false -> find p l = None.
Proof.
  induction l as [|x l IH]; simpl; [reflexivity|].
  destruct (p x); simpl; [discriminate | exact IH].
Qed.

Lemma create_weekly_summary_created cfg iso now ch ws db w db' :
  has_weekly_summary ch ws db = false ->
  aggregator.create_weekly_summary cfg iso now ch ws db = (Some w, db') ->
  aggregator.sentiments_between ch ws (ws + 6) db <> [].
Proof.
  intros Hnew. unfold aggregator.create_weekly_summary.
  unfold has_weekly_summary in Hnew.
  rewrite (existsb_false_find _ _ Hnew).
  destruct (aggregator.sentiments_between ch ws (ws + 6) db); [discriminate|].
  intros _ [=].
Qed.

(** ** Burnout alerts *)

Lemma find_app_last {A} (p : A -> bool) l x :
  p x = true -> exists y, find p (l ++ [x]) = Some y.
Proof.
  intros Hx. induction l as [|z l IH]; simpl.
  - rewrite Hx. eauto.
  - destruct (p z); eauto.
Qed.

Lemma recent_alert_is_active ch now i :
  aggregator.is_recent_burnout_alert ch now i = true ->
  is_active_burnout_alert ch i = true.
Proof.
  unfold aggregator.is_recent_burnout_alert, is_active_burnout_alert.
  rewrite !andb_true_iff. tauto.
Qed.

Lemma no_active_no_recent ch now l :
  List.filter (is_active_burnout_alert ch) l = [] ->
  find (aggregator.is_recent_burnout_alert ch now) l = None.
Proof.
  induction l as [|i l IH]; simpl; [reflexivity|].
  destruct (is_active_burnout_alert ch i) eqn:Ea; [discriminate|].
  intros Hl.
  destruct (aggregator.is_recent_burnout_alert ch now i) eqn:Er; [|auto].
  apply recent_alert_is_active in Er. congruence.
Qed.

(** With a recent active alert in the store the generator changes nothing. *)
Lemma burnout_insight_skipped iso now ch w db i :
  In i (insights db) ->
  aggregator.is_recent_burnout_alert ch now i = true ->
  aggregator.generate_burnout_insight iso now ch w db = db.
Proof.
  intros Hin Hrecent. unfold aggregator.generate_burnout_insight.
  destruct (find _ _) eqn:Efind; [reflexivity|].
  pose proof (find_none _ _ Efind i Hin). congruence.
Qed.

(** Without one it appends one active alert of the channel, stamped with
    the clock. *)
Lemma burnout_insight_created iso now ch w db :
  find (aggregator.is_recent_burnout_alert ch now) (insights db) = None ->
  exists i,
    aggregator.generate_burnout_insight iso now ch w db
    = mkSession (sentiments db) (weekly_summaries db) (insights db ++ [i])
    /\ Insight.channel_id i = ch
    /\ Insight.insight_type i = "burnout_alert"
    /\ Insight.is_active i = true
    /\ Insight.created_at i = Some now.
Proof.
  intros Hnone. unfold aggregator.generate_burnout_insight. rewrite Hnone.
  destruct (_ || _); [|destruct (_ || _)];
    (eexists; split; [reflexivity | simpl; auto]).
Qed.

(** C9. When the burnout-insight generator runs and the store holds an
    active [burnout_alert] of the channel created within the last seven
    days, nothing is created.  Hence two triggers for a channel at most
    seven days apart, from a store without an active alert of the channel,
    produce one insight, and it is the channel's only active alert. *)
Theorem burnout_alert_dedup iso ch :
  (forall now w db i created_at,
     In i (insights db) ->
     Insight.channel_id i = ch ->
     Insight.insight_type i = "burnout_alert" ->
     Insight.is_active i = true ->
     Insight.created_at i = Some created_at ->
     (now - aggregator.seven_days <= created_at)%Z ->
     aggregator.generate_burnout_insight iso now ch w db = db)
  /\ (forall t1 t2 w1 w2 db,
        (t1 <= t2)%Z -> (t2 <= t1 + aggregator.seven_days)%Z ->
        active_burnout_alerts ch db = [] ->
        let db2 :=
          aggregator.generate_burnout_insight iso t2 ch w2
            (aggregator.generate_burnout_insight iso t1 ch w1 db) in
        exists i,
          insights db2 = insights db ++ [i]
          /\ active_burnout_alerts ch db2 = [i]
          /\ Insight.created_at i = Some t1).
Proof.
  split.
  - intros now w db i created_at Hin Hch Hty Hact Hat Hrecent.
    apply (burnout_insight_skipped iso now ch w db i Hin).
    unfold aggregator.is_recent_burnout_alert.
    rewrite Hch, Hty, Hact, Hat, String.eqb_refl. simpl.
    apply Z.leb_le, Hrecent.
  - intros t1 t2 w1 w2 db H12 H21 Hnone db2.
    destruct (burnout_insight_created iso t1 ch w1 db)
      as (i & Hgen & Hch & Hty & Hact & Hat);
      [apply no_active_no_recent, Hnone|].
    assert (Hrecent : aggregator.is_recent_burnout_alert ch t2 i = true).
    { unfold aggregator.is_recent_burnout_alert.
      rewrite Hch, Hty, Hact, Hat, String.eqb_refl. simpl.
      apply Z.leb_le. lia. }
    exists i. unfold db2. rewrite Hgen.
    rewrite (burnout_insight_skipped iso t2 ch w2 _ i);
      [|simpl; apply in_or_app; right; left; reflexivity | exact Hrecent].
    simpl. split; [reflexivity|]. split; [|exact Hat].
    unfold active_burnout_alerts in *. simpl.
    rewrite List.filter_app, Hnone. simpl.
    rewrite (recent_alert_is_active ch t2 i Hrecent). reflexivity.
Qed.

Lemma burnout_alert_dedup_witness :
  exists i,
    insights
      (aggregator.generate_burnout_insight (fun _ => "") 1000 "C1"
         (week "C1" 15 (-0.4) true "Critical" 3)
         (aggregator.generate_burnout_insight (fun _ => "") 0 "C1"
            (week "C1" 8 (-0.25) true "Critical" 3) empty_db))
    = insights empty_db ++ [i]
    /\ active_burnout_alerts "C1"
         (aggregator.generate_burnout_insight (fun _ => "") 1000 "C1"
            (week "C1" 15 (-0.4) true "Critical" 3)
            (aggregator.generate_burnout_insight (fun _ => "") 0 "C1"
               (week "C1" 8 (-0.25) true "Critical" 3) empty_db))
       = [i]
    /\ Insight.created_at i = Some 0%Z.
Proof.
  apply (proj2 (burnout_alert_dedup (fun _ => "") "C1") 0%Z 1000%Z
           (week "C1" 8 (-0.25) true "Critical" 3)
           (week "C1" 15 (-0.4) true "Critical" 3) empty_db).
  - lia.
  - vm_compute. discriminate.
  - reflexivity.
Defined.

(** ** Recommendations *)

(** C2. The channel's latest weekly summary is flagged for burnout and its
    mean is below -0.1.  The burnout rule sets the priority to "high"; the
    mean rule then takes [max("high", "medium")], which on strings is
    "medium".  With only the rule on fewer than five active users triggered
    the priority stays "low": that rule never touches it. *)
Theorem burnout_priority_downgraded :
  forall iso now,
    insights.priority_level_of
      (insights.generate_channel_recommendations iso now "C1"
         (mkSession []
            [week "C1" 8 0.2 false "Medium" 12;
             week "C1" 15 (-0.25) true "Critical" 10] []))
    = Some "medium"
    /\ insights.priority_level_of
         (insights.generate_channel_recommendations iso now "C1"
            (mkSession [] [week "C1" 15 0 false "Low" 3] []))
       = Some "low".
Proof. intros iso now. split; vm_compute; reflexivity. Qed.

(** ** The weekly rule checks *)

(** What [_check_burnout_patterns] emits, by kind and severity: at most one
    pattern insight, then the participation insight when the newest count
    is more than 2 below the count of the last of the weeks looked at. *)
Lemma check_burnout_patterns_kinds ch ws newest oldest :
  (2 <= length ws)%nat ->
  head ws = Some newest ->
  last (take 3 ws) = Some oldest ->
  exists pattern,
    (pattern = [] \/ pattern = [("burnout_pattern", "critical")]
     \/ pattern = [("burnout_pattern", "high")])
    /\ kinds (insights._check_burnout_patterns ch ws)
       = pattern
         ++ (if (WeeklySummary.active_user_count newest
                 - WeeklySummary.active_user_count oldest <? -2)%Z
             then [("participation_decline", "medium")] else []).
Proof.
  intros Hlen Hhead Hlast. unfold insights._check_burnout_patterns.
  destruct (length ws <? 2)%nat eqn:E; [apply Nat.ltb_lt in E; lia|].
  assert (Hl3 : (2 <=? length (take 3 ws))%nat = true).
  { apply Nat.leb_le. rewrite length_take. lia. }
  rewrite Hl3.
  assert (Hh3 : head (take 3 ws) = Some newest).
  { destruct ws; [discriminate|exact Hhead]. }
  rewrite Hh3, Hlast.
  match goal with
  | |- context [if (2 <=? ?n)%nat then ?a else []] =>
      set (pat := if (2 <=? n)%nat then a else [])
  end.
  exists (kinds pat). split.
  - unfold pat.
    match goal with
    | |- context [(2 <=? length (List.filter ?f ?l))%nat] =>
        destruct (2 <=? length (List.filter f l))%nat; [|left; reflexivity];
        destruct (length (List.filter f l) =? 3)%nat;
        [right; left | right; right]; reflexivity
    end.
  - destruct (_ <? -2)%Z.
    + unfold kinds. rewrite fmap_app. reflexivity.
    + rewrite app_nil_r. reflexivity.
Qed.

(** C3, as stated, fails: with counts 5, 5 and 10 (newest first) the newest
    week is not below the week before, yet the decline insight is emitted,
    because the newest count is compared with the third week's. *)
Lemma decline_compares_with_third_week :
  In ("participation_decline", "medium")
     (kinds (insights._check_burnout_patterns "C1"
               [week "C1" 15 0 false "Low" 5; week "C1" 8 0 false "Low" 5;
                week "C1" 1 0 false "Low" 10]))
  /\ ~ (5 < 5 - 2)%Z.
Proof. split; [vm_compute; auto | lia]. Qed.

(** C3, amended.  For at least two summaries, newest first, the burnout
    check emits a medium "participation decline" insight exactly when the
    newest week's active-user count is more than 2 below that of the last
    of the (up to three) most recent weeks: the week before when there are
    two summaries, the third most recent week otherwise. *)
Theorem participation_decline_rule ch ws newest oldest :
  (2 <= length ws)%nat ->
  head ws = Some newest ->
  last (take 3 ws) = Some oldest ->
  (In ("participation_decline", "medium")
      (kinds (insights._check_burnout_patterns ch ws))
   <-> (WeeklySummary.active_user_count newest
        < WeeklySummary.active_user_count oldest - 2)%Z)
  /\ (forall severity,
        In ("participation_decline", severity)
           (kinds (insights._check_burnout_patterns ch ws)) ->
        severity = "medium")
  /\ (length ws = 2%nat -> ws !! 1%nat = Some oldest)
  /\ ((3 <= length ws)%nat -> ws !! 2%nat = Some oldest).
Proof.
  intros Hlen Hhead Hlast.
  destruct (check_burnout_patterns_kinds ch ws newest oldest Hlen Hhead Hlast)
    as (pattern & Hpat & ->).
  assert (Hno : forall severity, ~ In ("participation_decline", severity) pattern).
  { intros severity Hin.
    destruct Hpat as [-> | [-> | ->]]; simpl in Hin;
      [tauto | destruct Hin as [[=]|[]] | destruct Hin as [[=]|[]]]. }
  repeat split.
  - intros Hin. apply in_app_or in Hin as [Hin | Hin]; [destruct (Hno _ Hin)|].
    destruct (_ <? -2)%Z eqn:E; [apply Z.ltb_lt in E; lia | destruct Hin].
  - intros Hlt. apply in_or_app. right.
    replace (_ <? -2)%Z with true; [left; reflexivity|].
    symmetry. apply Z.ltb_lt. lia.
  - intros severity Hin.
    apply in_app_or in Hin as [Hin | Hin]; [destruct (Hno _ Hin)|].
    destruct (_ <? -2)%Z; [|destruct Hin].
    destruct Hin as [[= <-]|[]]. reflexivity.
  - intros H2. destruct ws as [|a [|b [|c rest]]]; try discriminate.
    exact Hlast.
  - intros H3. destruct ws as [|a [|b [|c rest]]]; simpl in H3; try lia.
    destruct rest; exact Hlast.
Qed.

Lemma participation_decline_rule_witness :
  In ("participation_decline", "medium")
     (kinds (insights._check_burnout_patterns "C1"
               [week "C1" 15 0 false "Low" 4; week "C1" 8 0 false "Low" 9]))
  <-> (4 < 9 - 2)%Z.
Proof.
  apply (participation_decline_rule "C1"
           [week "C1" 15 0 false "Low" 4; week "C1" 8 0 false "Low" 9]
           (week "C1" 15 0 false "Low" 4) (week "C1" 8 0 false "Low" 9)).
  - simpl. lia.
  - reflexivity.
  - reflexivity.
Defined.

(** ** The participation trend *)

#[global] Instance newer_first_trans : Transitive insights.newer_first.
Proof. unfold insights.newer_first. intros a b c; lia. Qed.

#[global] Instance newer_first_total : Total insights.newer_first.
Proof. unfold insights.newer_first. intros a b; lia. Qed.

Lemma recent_weekly_summaries_sorted today ch db :
  StronglySorted insights.newer_first
    (insights.recent_weekly_summaries today ch db).
Proof.
  unfold insights.recent_weekly_summaries, insights.order_by_week_start_desc.
  apply StronglySorted_merge_sort; apply _.
Qed.

(** In a list of distinct weeks, newest first, a relation that holds from
    the count of every week to the count of every later week holds from
    each count to the counts before it in the list. *)
Lemma counts_along_list (rel : Z -> Z -> Prop) ws :
  StronglySorted insights.newer_first ws ->
  NoDup (WeeklySummary.week_start <$> ws) ->
  (forall a b, In a ws -> In b ws ->
     (WeeklySummary.week_start a < WeeklySummary.week_start b)%Z ->
     rel (WeeklySummary.active_user_count a) (WeeklySummary.active_user_count b)) ->
  StronglySorted (fun x y => rel y x) (insights.active_counts ws).
Proof.
  unfold insights.active_counts.
  induction 1 as [|w ws Hsorted IH Hall]; intros Hnodup Hrel; simpl;
    constructor.
  - apply IH.
    + apply NoDup_cons in Hnodup as [_ Hnodup]. exact Hnodup.
    + intros a b Ha Hb. apply Hrel; right; assumption.
  - apply NoDup_cons in Hnodup as [Hnotin _].
    apply Forall_fmap, Forall_forall. intros y Hy. simpl.
    apply list_elem_of_In in Hy as Hy'.
    apply Hrel; [right; exact Hy' | left; reflexivity |].
    rewrite Forall_forall in Hall. specialize (Hall y Hy).
    unfold insights.newer_first in Hall.
    assert (WeeklySummary.week_start y <> WeeklySummary.week_start w).
    { intros Heq. apply Hnotin. rewrite <- Heq.
      apply list_elem_of_fmap. eauto. }
    lia.
Qed.

Lemma above_half N D :
  (0 < D)%Z -> (D < 2 * N)%Z -> py.gt (inject_Z N / inject_Z D) 0.5 = true.
Proof.
  intros HD HN. apply gt_spec. apply Qlt_shift_div_l.
  - change 0 with (inject_Z 0). rewrite <- Zlt_Qlt. exact HD.
  - unfold Qlt, Qmult, inject_Z. simpl. lia.
Qed.

Lemma below_minus_half N D :
  (0 < D)%Z -> (2 * N < - D)%Z -> py.lt (inject_Z N / inject_Z D) (-0.5) = true.
Proof.
  intros HD HN. apply lt_spec. apply Qlt_shift_div_r.
  - change 0 with (inject_Z 0). rewrite <- Zlt_Qlt. exact HD.
  - unfold Qlt, Qmult, inject_Z. simpl. lia.
Qed.

Lemma not_below_minus_half N D :
  (0 < D)%Z -> (0 <= N)%Z -> py.lt (inject_Z N / inject_Z D) (-0.5) = false.
Proof.
  intros HD HN. apply lt_false.
  apply Qle_trans with 0; [discriminate|].
  apply Qle_shift_div_l.
  - change 0 with (inject_Z 0). rewrite <- Zlt_Qlt. exact HD.
  - rewrite Qmult_0_l. change 0 with (inject_Z 0). rewrite <- Zle_Qle. exact HN.
Qed.

(** What [_check_participation_trends] emits, by kind and severity. *)
Lemma check_participation_trends_kinds ch ws :
  (3 <= length ws)%nat ->
  kinds (insights._check_participation_trends ch ws)
  = let slope := insights.trend_slope (insights.active_counts (take 4 ws)) in
    if py.lt slope (-0.5) then [("participation_trend", "medium")]
    else if py.gt slope 0.5 then [("participation_growth", "low")]
    else [].
Proof.
  intros Hlen. unfold insights._check_participation_trends.
  destruct (length ws <? 3)%nat eqn:E; [apply Nat.ltb_lt in E; lia|].
  assert (Hl : (1 <? length (insights.active_counts (take 4 ws)))%nat = true).
  { apply Nat.ltb_lt. unfold insights.active_counts.
    rewrite length_fmap, length_take. lia. }
  rewrite Hl. cbv zeta.
  destruct (py.lt _ (-0.5)); [reflexivity|].
  destruct (py.gt _ 0.5); reflexivity.
Qed.

(** Counts that grow along the list (newest first) have a slope above 0.5;
    counts that shrink along the list have a slope below -0.5. *)
Lemma slope_of_growing_list counts :
  (3 <= length counts <= 4)%nat ->
  StronglySorted Z.lt counts ->
  py.lt (insights.trend_slope counts) (-0.5) = false
  /\ py.gt (insights.trend_slope counts) 0.5 = true.
Proof.
  intros Hlen Hs.
  destruct counts as [|a [|b [|c [|d [|e rest]]]]]; simpl in Hlen; try lia.
  - apply StronglySorted_inv in Hs as [Hs Ha].
    apply StronglySorted_inv in Hs as [_ Hb].
    apply Forall_cons in Ha as [Hab Ha]. apply Forall_cons in Ha as [Hac _].
    apply Forall_cons in Hb as [Hbc _].
    unfold insights.trend_slope. cbn -[Z.mul Z.add Z.sub inject_Z Qdiv py.lt py.gt].
    split; [apply not_below_minus_half | apply above_half]; lia.
  - apply StronglySorted_inv in Hs as [Hs Ha].
    apply StronglySorted_inv in Hs as [Hs Hb].
    apply StronglySorted_inv in Hs as [_ Hc].
    apply Forall_cons in Ha as [Hab Ha]. apply Forall_cons in Ha as [Hac Ha].
    apply Forall_cons in Ha as [Had _].
    apply Forall_cons in Hb as [Hbc Hb]. apply Forall_cons in Hb as [Hbd _].
    apply Forall_cons in Hc as [Hcd _].
    unfold insights.trend_slope. cbn -[Z.mul Z.add Z.sub inject_Z Qdiv py.lt py.gt].
    split; [apply not_below_minus_half | apply above_half]; lia.
Qed.

Lemma slope_of_shrinking_list counts :
  (3 <= length counts <= 4)%nat ->
  StronglySorted (fun x y => y < x)%Z counts ->
  py.lt (insights.trend_slope counts) (-0.5) = true.
Proof.
  intros Hlen Hs.
  destruct counts as [|a [|b [|c [|d [|e rest]]]]]; simpl in Hlen; try lia.
  - apply StronglySorted_inv in Hs as [Hs Ha].
    apply StronglySorted_inv in Hs as [_ Hb].
    apply Forall_cons in Ha as [Hab Ha]. apply Forall_cons in Ha as [Hac _].
    apply Forall_cons in Hb as [Hbc _].
    unfold insights.trend_slope. cbn -[Z.mul Z.add Z.sub inject_Z Qdiv py.lt py.gt].
    apply below_minus_half; lia.
  - apply StronglySorted_inv in Hs as [Hs Ha].
    apply StronglySorted_inv in Hs as [Hs Hb].
    apply StronglySorted_inv in Hs as [_ Hc].
    apply Forall_cons in Ha as [Hab Ha]. apply Forall_cons in Ha as [Hac Ha].
    apply Forall_cons in Ha as [Had _].
    apply Forall_cons in Hb as [Hbc Hb]. apply Forall_cons in Hb as [Hbd _].
    apply Forall_cons in Hc as [Hcd _].
    unfold insights.trend_slope. cbn -[Z.mul Z.add Z.sub inject_Z Qdiv py.lt py.gt].
    apply below_minus_half; lia.
Qed.

Lemma StronglySorted_take {A} (R : relation A) l : forall n,
  StronglySorted R l -> StronglySorted R (take n l).
Proof.
  induction l as [|x l IH]; intros [|n] Hs; simpl; try constructor.
  - apply IH. apply StronglySorted_inv in Hs as [Hs _]. exact Hs.
  - apply Forall_take. apply StronglySorted_inv in Hs as [_ Hx]. exact Hx.
Qed.

Lemma recent_counts_length ws :
  (3 <= length ws)%nat ->
  (3 <= length (insights.active_counts (take 4 ws)) <= 4)%nat.
Proof.
  intros Hlen. unfold insights.active_counts.
  rewrite length_fmap, length_take. lia.
Qed.

(** C10. The summaries of the past 30 days are read newest first and the
    slope is fitted against their position in that order.  So when there
    are at least three of them (one per week) and the active-user counts
    fall as the weeks go by, the slope is above 0.5 and the check emits the
    low "participation_growth" insight and no "participation_trend" one;
    when the counts rise as the weeks go by, the slope is below -0.5 and it
    emits the medium "participation_trend" (declining) insight.  Counts
    being whole numbers, a strict fall or rise is by at least one user
    a week, which is more than 0.5. *)
Theorem participation_trend_reads_newest_first today ch db :
  let ws := insights.recent_weekly_summaries today ch db in
  (3 <= length ws)%nat ->
  NoDup (WeeklySummary.week_start <$> ws) ->
  ((forall a b, In a ws -> In b ws ->
      (WeeklySummary.week_start a < WeeklySummary.week_start b)%Z ->
      (WeeklySummary.active_user_count b < WeeklySummary.active_user_count a)%Z) ->
   0.5 < insights.trend_slope (insights.active_counts (take 4 ws))
   /\ kinds (insights._check_participation_trends ch ws)
      = [("participation_growth", "low")])
  /\ ((forall a b, In a ws -> In b ws ->
         (WeeklySummary.week_start a < WeeklySummary.week_start b)%Z ->
         (WeeklySummary.active_user_count a < WeeklySummary.active_user_count b)%Z) ->
      insights.trend_slope (insights.active_counts (take 4 ws)) < -0.5
      /\ kinds (insights._check_participation_trends ch ws)
         = [("participation_trend", "medium")]).
Proof.
  intros ws Hlen Hnodup.
  pose proof (recent_weekly_summaries_sorted today ch db) as Hsorted.
  fold ws in Hsorted.
  pose proof (recent_counts_length ws Hlen) as Hl4.
  rewrite (check_participation_trends_kinds ch ws Hlen). cbv zeta.
  unfold insights.active_counts in *. rewrite fmap_take in *.
  split; intros Hcal.
  - pose proof (counts_along_list (fun x y => y < x)%Z ws Hsorted Hnodup Hcal)
      as Hcounts.
    apply (StronglySorted_take _ _ 4) in Hcounts.
    destruct (slope_of_growing_list _ Hl4 Hcounts) as [-> Hgt].
    rewrite Hgt. split; [apply gt_spec, Hgt | reflexivity].
  - pose proof (counts_along_list Z.lt ws Hsorted Hnodup Hcal) as Hcounts.
    apply (StronglySorted_take _ _ 4) in Hcounts.
    pose proof (slope_of_shrinking_list _ Hl4 Hcounts) as Hlt.
    rewrite Hlt. split; [apply lt_spec, Hlt | reflexivity].
Qed.

Lemma participation_trend_reads_newest_first_witness :
  0.5 < insights.trend_slope
          (insights.active_counts
             (take 4 (insights.recent_weekly_summaries 30 "C1" shrinking_channel)))
  /\ kinds (insights._check_participation_trends "C1"
              (insights.recent_weekly_summaries 30 "C1" shrinking_channel))
     = [("participation_growth", "low")].
Proof.
  apply (participation_trend_reads_newest_first 30 "C1" shrinking_channel).
  - vm_compute. lia.
  - apply (bool_decide_unpack _). vm_compute. exact I.
  - intros a b Ha Hb. vm_compute in Ha, Hb.
    destruct Ha as [<- | [<- | [<- | []]]];
      destruct Hb as [<- | [<- | [<- | []]]]; simpl; lia.
Defined.

(** ** Further properties of app/sentiment.py *)

(** X1. The keyword modifier of any text lies in [-0.5, 0.5], however many
    keywords the text holds. *)
Theorem keyword_modifier_in_range text :
  -0.5 <= sentiment.calculate_keyword_sentiment text
  /\ sentiment.calculate_keyword_sentiment text <= 0.5.
Proof.
  unfold sentiment.calculate_keyword_sentiment.
  apply clamp_bounds. lra.
Qed.

Lemma no_emoji_no_boost lib text :
  sentiment.extract_emojis lib text = [] ->
  sentiment.calculate_emoji_sentiment lib text == 0.
Proof.
  intros Hnone. unfold sentiment.calculate_emoji_sentiment.
  rewrite Hnone. vm_compute. reflexivity.
Qed.

(** X2. The emoji boost of any text lies in [-1, 1], whatever emojis are
    found and however many; it is 0 when no emoji is found. *)
Theorem emoji_boost_in_range lib text :
  (-1 <= sentiment.calculate_emoji_sentiment lib text
   /\ sentiment.calculate_emoji_sentiment lib text <= 1)
  /\ (sentiment.extract_emojis lib text = [] ->
      sentiment.calculate_emoji_sentiment lib text == 0).
Proof.
  split; [|apply no_emoji_no_boost].
  unfold sentiment.calculate_emoji_sentiment.
  match goal with
  | |- context [py.max ?x _] => destruct (clamp_bounds (-1.0) 1.0 x); [lra|]
  end.
  split; lra.
Qed.

Lemma emoji_boost_in_range_witness :
  sentiment.calculate_emoji_sentiment plain_lib "see you at standup" == 0.
Proof.
  apply (proj2 (emoji_boost_in_range plain_lib "see you at standup")).
  reflexivity.
Defined.

Lemma keyword_sum_without_keywords text_lower kws : forall acc,
  Forall (fun kw : string * Q => py.contains kw.1 text_lower = false) kws ->
  fold_left
    (fun acc kw => if py.contains kw.1 text_lower then acc + kw.2 else acc)
    kws acc = acc.
Proof.
  induction kws as [|kw kws IH]; intros acc Hall; [reflexivity|].
  apply Forall_cons in Hall as [Hkw Hall]. simpl. rewrite Hkw. apply IH, Hall.
Qed.

(** X3. A message in which no emoji is found and which holds none of the
    work keywords gets the clamped text score as final score: the other two
    components add nothing. *)
Theorem plain_text_final_score lib today event_body db r db1 :
  let text := default "" (default ∅ (event_body !! "event") !! "text") in
  sentiment.score_event lib today event_body db = (Some r, db1) ->
  stored (Sentiment.message_ts r) (Sentiment.channel_id r) db = None ->
  sentiment.extract_emojis lib text = [] ->
  Forall (fun kw : string * Q => py.contains kw.1 (py.lower text) = false)
    sentiment.WORK_KEYWORDS ->
  Sentiment.final_score r
  == py.min (py.max (Sentiment.sentiment_score r) (-1.0)) 1.0
  /\ Sentiment.emoji_boost r == 0
  /\ sentiment.calculate_keyword_sentiment text == 0.
Proof.
  intros text Hscore Hnone Hemoji Hkw.
  destruct (score_event_fresh _ _ _ _ _ _ Hscore Hnone) as (-> & _ & Hfinal).
  fold text in Hfinal.
  assert (Hk : sentiment.calculate_keyword_sentiment text == 0).
  { unfold sentiment.calculate_keyword_sentiment.
    rewrite (keyword_sum_without_keywords _ _ _ Hkw). vm_compute. reflexivity. }
  assert (He : Sentiment.emoji_boost r == 0).
  { revert Hscore. unfold sentiment.score_event.
    destruct (negb _); [discriminate|].
    destruct (_ !! "channel") as [ch|]; [|discriminate].
    destruct (_ !! "user") as [u|]; [|discriminate].
    destruct (_ !! "ts") as [ts|]; [|discriminate].
    destruct (negb _); [discriminate|].
    destruct (find _ _) as [existing|] eqn:Efind.
    - intros [= -> _]. exfalso.
      destruct (find_some _ _ Efind) as [_ Hkey].
      apply is_message_eq in Hkey as [<- <-].
      unfold stored in Hnone. congruence.
    - unfold sentiment.score_new.
      destruct (_ !! "compound"); simpl; [|discriminate].
      destruct (_ !! "positive"); simpl; [|discriminate].
      destruct (_ !! "negative"); simpl; [|discriminate].
      intros [= <-]. simpl.
      apply no_emoji_no_boost, Hemoji. }
  split; [|split; assumption].
  rewrite Hfinal. apply clamp_proper. rewrite He, Hk. ring.
Qed.

Lemma plain_text_final_score_witness :
  exists r db1,
    sentiment.score_event plain_lib 10
      (message_event [("channel", "C1"); ("user", "U1"); ("ts", "2.0");
                      ("text", "see you at standup")]) empty_db = (Some r, db1)
    /\ Sentiment.final_score r
       == py.min (py.max (Sentiment.sentiment_score r) (-1.0)) 1.0.
Proof.
  eexists; eexists; split; [vm_compute; reflexivity|].
  eapply (plain_text_final_score plain_lib 10
            (message_event [("channel", "C1"); ("user", "U1"); ("ts", "2.0");
                            ("text", "see you at standup")]) empty_db).
  - vm_compute; reflexivity.
  - vm_compute; reflexivity.
  - vm_compute; reflexivity.
  - apply Forall_forall. intros kw Hin.
    apply list_elem_of_In in Hin.
    assert (Hall : forallb
                     (fun kw : string * Q =>
                        negb (py.contains kw.1 (py.lower "see you at standup")))
                     sentiment.WORK_KEYWORDS = true) by (vm_compute; reflexivity).
    rewrite forallb_forall in Hall. specialize (Hall kw Hin).
    apply negb_true_iff in Hall. exact Hall.
Defined.

(** X4. Scoring is idempotent: when [score_event] has returned a row for an
    event, scoring the same event again, on any later day, returns that very
    row and leaves the store as it is. *)
Theorem score_event_idempotent lib today today' event_body db r db1 :
  sentiment.score_event lib today event_body db = (Some r, db1) ->
  sentiment.score_event lib today' event_body db1 = (Some r, db1).
Proof.
  unfold sentiment.score_event.
  destruct (negb _); [discriminate|].
  destruct (_ !! "channel") as [ch|]; [|discriminate].
  destruct (_ !! "user") as [u|]; [|discriminate].
  destruct (_ !! "ts") as [ts|]; [|discriminate].
  destruct (negb _); [discriminate|].
  destruct (find _ (sentiments db)) as [existing|] eqn:Efind.
  - intros [= -> ->]. rewrite Efind. reflexivity.
  - unfold sentiment.score_new.
    destruct (_ !! "compound"); simpl; [|discriminate].
    destruct (_ !! "positive"); simpl; [|discriminate].
    destruct (_ !! "negative"); simpl; [|discriminate].
    intros [= <- <-]. simpl.
    rewrite (find_app_none _ _ _ Efind).
    unfold sentiment.is_message at 1. simpl. rewrite !String.eqb_refl. simpl.
    reflexivity.
Qed.

Lemma score_event_idempotent_witness :
  exists r db1,
    sentiment.score_event plain_lib 10
      (message_event [("channel", "C1"); ("user", "U1"); ("ts", "1.0");
                      ("text", "shipped it")]) empty_db = (Some r, db1)
    /\ sentiment.score_event plain_lib 11
         (message_event [("channel", "C1"); ("user", "U1"); ("ts", "1.0");
                         ("text", "shipped it")]) db1 = (Some r, db1).
Proof.
  eexists; eexists; split; [vm_compute; reflexivity|].
  apply (score_event_idempotent plain_lib 10 11
           (message_event [("channel", "C1"); ("user", "U1"); ("ts", "1.0");
                           ("text", "shipped it")]) empty_db).
  vm_compute; reflexivity.
Defined.

(** X5. When the analyser's result for the text lacks one of the keys
    [compound], [positive] and [negative], as NLTK's own key names do, the
    [KeyError] is swallowed: nothing is stored, and the only row that can
    come back is one stored before. *)
Theorem score_event_missing_score_key lib today event_body db :
  let text := default "" (default ∅ (event_body !! "event") !! "text") in
  sentiment.analyze_text_sentiment lib text !! "compound" = None
  \/ sentiment.analyze_text_sentiment lib text !! "positive" = None
  \/ sentiment.analyze_text_sentiment lib text !! "negative" = None ->
  (sentiment.score_event lib today event_body db).2 = db
  /\ forall r, (sentiment.score_event lib today event_body db).1 = Some r ->
               In r (sentiments db).
Proof.
  intros text Hmiss. unfold sentiment.score_event. fold text.
  destruct (negb _); [split; [reflexivity | discriminate]|].
  destruct (_ !! "channel") as [ch|]; [|split; [reflexivity | discriminate]].
  destruct (_ !! "user") as [u|]; [|split; [reflexivity | discriminate]].
  destruct (_ !! "ts") as [ts|]; [|split; [reflexivity | discriminate]].
  destruct (negb _); [split; [reflexivity | discriminate]|].
  destruct (find _ _) as [existing|] eqn:Efind.
  - split; [reflexivity|]. simpl. intros r [= <-].
    apply (find_some _ _ Efind).
  - unfold sentiment.score_new.
    destruct (_ !! "compound"); simpl;
      [|split; [reflexivity | discriminate]].
    destruct (_ !! "positive"); simpl;
      [|split; [reflexivity | discriminate]].
    destruct (_ !! "negative"); simpl;
      [|split; [reflexivity | discriminate]].
    destruct Hmiss as [H | [H | H]]; discriminate.
Qed.

Lemma score_event_missing_score_key_witness :
  sentiment.score_event nltk_lib 10
    (message_event [("channel", "C1"); ("user", "U1"); ("ts", "1.0");
                    ("text", "great job, shipped!")]) empty_db
  = (None, empty_db).
Proof.
  destruct (score_event_missing_score_key nltk_lib 10
              (message_event [("channel", "C1"); ("user", "U1"); ("ts", "1.0");
                              ("text", "great job, shipped!")]) empty_db)
    as [Hdb Hrow].
  - right; left. vm_compute. reflexivity.
  - destruct (sentiment.score_event _ _ _ _) as [[r|] db'] eqn:E;
      simpl in *; subst.
    + destruct (Hrow r eq_refl).
    + reflexivity.
Defined.

Lemma update_first_length {A} (p : A -> bool) f l :
  length (update_first p f l) = length l.
Proof.
  induction l as [|x l IH]; simpl; [reflexivity|].
  destruct (p x); simpl; congruence.
Qed.

Lemma update_first_lookup {A} (p : A -> bool) f (l : list A) : forall i x,
  l !! i = Some x ->
  update_first p f l !! i = Some x
  \/ (p x = true /\ update_first p f l !! i = Some (f x)).
Proof.
  induction l as [|y l IH]; intros [|i] x; simpl; try discriminate.
  - intros [= ->]. destruct (p x) eqn:E; simpl; auto.
  - intros Hx. destruct (p y); simpl; auto.
Qed.

(** X6. A reaction update reports failure exactly when the message has no
    stored row, and then changes nothing.  In every case the number of rows
    and the other tables stay as they are, rows of other messages are
    untouched, and in a row only the reaction boost and the final score can
    change. *)
Theorem reaction_update_frame ts ch reaction modifier db :
  let result :=
    sentiment.update_sentiment_with_reaction ts ch reaction modifier db in
  (result.1 = false <-> stored ts ch db = None)
  /\ (result.1 = false -> result.2 = db)
  /\ length (sentiments result.2) = length (sentiments db)
  /\ weekly_summaries result.2 = weekly_summaries db
  /\ insights result.2 = insights db
  /\ (forall i s,
        sentiments db !! i = Some s ->
        sentiment.is_message ts ch s = false ->
        sentiments result.2 !! i = Some s)
  /\ (forall i s s',
        sentiments db !! i = Some s ->
        sentiments result.2 !! i = Some s' ->
        Sentiment.channel_id s' = Sentiment.channel_id s
        /\ Sentiment.user_id s' = Sentiment.user_id s
        /\ Sentiment.message_ts s' = Sentiment.message_ts s
        /\ Sentiment.text_content s' = Sentiment.text_content s
        /\ Sentiment.sentiment_score s' = Sentiment.sentiment_score s
        /\ Sentiment.confidence s' = Sentiment.confidence s
        /\ Sentiment.emoji_boost s' = Sentiment.emoji_boost s
        /\ Sentiment.analysis_date s' = Sentiment.analysis_date s).
Proof.
  unfold sentiment.update_sentiment_with_reaction, stored.
  destruct (find _ _) as [found|] eqn:Efind;
    cbn [fst snd sentiments weekly_summaries insights].
  - split; [split; discriminate|]. split; [discriminate|].
    split; [apply update_first_length|]. split; [reflexivity|].
    split; [reflexivity|]. split.
    + intros i s Hs Hkey.
      destruct (update_first_lookup (sentiment.is_message ts ch)
                  (sentiment.apply_reaction
                     (default 0.0 (sentiment.REACTION_SCORES !! reaction)
                      * inject_Z modifier)) _ _ _ Hs) as [H | [H _]];
        [exact H | congruence].
    + intros i s s' Hs Hs'.
      destruct (update_first_lookup (sentiment.is_message ts ch)
                  (sentiment.apply_reaction
                     (default 0.0 (sentiment.REACTION_SCORES !! reaction)
                      * inject_Z modifier)) _ _ _ Hs) as [H | [_ H]];
        rewrite H in Hs'; injection Hs' as <-; repeat split.
  - split; [split; reflexivity|]. split; [reflexivity|].
    split; [reflexivity|]. split; [reflexivity|]. split; [reflexivity|].
    split; [auto|].
    intros i s s' Hs Hs'. rewrite Hs in Hs'. injection Hs' as <-.
    repeat split.
Qed.

Lemma reaction_update_frame_witness :
  (sentiment.update_sentiment_with_reaction "9.9" "C1" "thumbsup" 1
     (one_message_week 0.2)).2 = one_message_week 0.2.
Proof.
  apply (reaction_update_frame "9.9" "C1" "thumbsup" 1 (one_message_week 0.2)).
  apply (reaction_update_frame "9.9" "C1" "thumbsup" 1 (one_message_week 0.2)).
  reflexivity.
Defined.

(** Every score falls in exactly one of the three buckets. *)
Lemma one_bucket score :
  (sentiment.is_positive score = true
   /\ sentiment.is_neutral score = false /\ sentiment.is_negative score = false)
  \/ (sentiment.is_positive score = false
      /\ sentiment.is_neutral score = true /\ sentiment.is_negative score = false)
  \/ (sentiment.is_positive score = false
      /\ sentiment.is_neutral score = false /\ sentiment.is_negative score = true).
Proof.
  unfold sentiment.is_positive, sentiment.is_neutral, sentiment.is_negative,
    py.gt.
  case_lt 0.1 score; case_lt score (-0.1); case_le (-0.1) score;
    case_le score 0.1; simpl; try lra; auto.
Qed.

Lemma buckets_partition scores :
  (sentiment.count_if sentiment.is_positive scores
   + sentiment.count_if sentiment.is_neutral scores
   + sentiment.count_if sentiment.is_negative scores
   = Z.of_nat (length scores))%Z.
Proof.
  unfold sentiment.count_if.
  induction scores as [|x scores IH]; [reflexivity|]. simpl.
  destruct (one_bucket x) as [(-> & -> & ->) | [(-> & -> & ->) | (-> & -> & ->)]];
    simpl length; lia.
Qed.

(** X8. In the summary of any channel and date range, the positive, the
    neutral and the negative counts add up to the message count; without a
    message in the range all four are 0 and no trend label is given. *)
Theorem sentiment_summary_counts channel_id start_date end_date db :
  let summary :=
    sentiment.get_sentiment_summary channel_id start_date end_date db in
  (sentiment.positive_count summary + sentiment.neutral_count summary
   + sentiment.negative_count summary = sentiment.message_count summary)%Z
  /\ (sentiment.message_count summary = 0%Z <->
      sentiment.sentiment_trend summary = None)
  /\ (sentiment.message_count summary = 0%Z <->
      forall s, In s (sentiments db) ->
                Sentiment.channel_id s = channel_id ->
                ~ (start_date <= Sentiment.analysis_date s <= end_date)%Z).
Proof.
  unfold sentiment.get_sentiment_summary.
  destruct (List.filter _ _) as [|s0 rows] eqn:E.
  - simpl. split; [reflexivity|]. split; [tauto|]. split; [|reflexivity].
    intros _ s Hin Hch Hdate.
    assert (Hs : In s (List.filter
                   (fun s => String.eqb (Sentiment.channel_id s) channel_id
                             && (start_date <=? Sentiment.analysis_date s)%Z
                             && (Sentiment.analysis_date s <=? end_date)%Z)
                   (sentiments db))).
    { apply filter_In. split; [exact Hin|].
      rewrite Hch, String.eqb_refl. simpl.
      apply andb_true_iff. split; apply Z.leb_le; lia. }
    rewrite E in Hs. destruct Hs.
  - cbn [sentiment.positive_count sentiment.neutral_count
         sentiment.negative_count sentiment.message_count
         sentiment.sentiment_trend].
    split.
    + rewrite buckets_partition, length_fmap. reflexivity.
    + split; [split; [simpl length; lia | discriminate]|].
      split; [simpl length; lia|]. intros Hnone. exfalso.
      assert (Hs : In s0 (s0 :: rows)) by (left; reflexivity).
      rewrite <- E in Hs. apply filter_In in Hs as [Hin Hp].
      apply andb_true_iff in Hp as [Hp H3].
      apply andb_true_iff in Hp as [H1 H2].
      apply String.eqb_eq in H1. apply Z.leb_le in H2, H3.
      apply (Hnone s0 Hin H1). lia.
Qed.

Lemma sentiment_summary_counts_witness :
  sentiment.message_count
    (sentiment.get_sentiment_summary "C2" 1 30 (two_message_weeks 0.25 0)) = 0%Z.
Proof.
  apply (sentiment_summary_counts "C2" 1 30 (two_message_weeks 0.25 0)).
  intros s Hin Hch. vm_compute in Hin.
  destruct Hin as [<- | [<- | []]]; discriminate.
Defined.

(** ** Further properties of app/aggregator.py *)

(** X9. The Monday of a date's week is a Monday, lies at most six days
    before the date, and is its own Monday; the Sunday is six days later,
    so the date lies between the two. *)
Theorem monday_of_week_spec d :
  aggregator.weekday (aggregator.get_monday_of_week d) = 0%Z
  /\ (aggregator.get_monday_of_week d <= d
      <= aggregator.get_sunday_of_week d)%Z
  /\ aggregator.get_sunday_of_week d
     = (aggregator.get_monday_of_week d + 6)%Z
  /\ aggregator.get_monday_of_week (aggregator.get_monday_of_week d)
     = aggregator.get_monday_of_week d
  /\ (aggregator.weekday d = 0%Z -> aggregator.get_monday_of_week d = d).
Proof.
  unfold aggregator.get_sunday_of_week, aggregator.get_monday_of_week,
    aggregator.weekday.
  pose proof (Z.mod_pos_bound (d + 6) 7 ltac:(lia)) as Hb.
  pose proof (Z.div_mod (d + 6) 7 ltac:(lia)) as Hd.
  assert (Hm : ((d - (d + 6) mod 7 + 6) mod 7 = 0)%Z).
  { replace (d - (d + 6) mod 7 + 6)%Z with (((d + 6) / 7) * 7)%Z by lia.
    apply Z.mod_mul. lia. }
  repeat split; try lia.
Qed.

Lemma monday_of_week_spec_witness :
  aggregator.get_monday_of_week 8 = 8%Z.
Proof.
  apply (monday_of_week_spec 8). reflexivity.
Defined.

Lemma burnout_insight_keeps_tables iso now ch w db :
  sentiments (aggregator.generate_burnout_insight iso now ch w db) = sentiments db
  /\ weekly_summaries (aggregator.generate_burnout_insight iso now ch w db)
     = weekly_summaries db.
Proof.
  unfold aggregator.generate_burnout_insight.
  destruct (find _ _); [split; reflexivity|].
  destruct (_ || _); [|destruct (_ || _)]; split; reflexivity.
Qed.

(** A summary created for a week that had none: its key and counts, and
    what the call did to the store. *)
Lemma create_weekly_summary_new cfg iso now ch ws db w db' :
  has_weekly_summary ch ws db = false ->
  aggregator.create_weekly_summary cfg iso now ch ws db = (Some w, db') ->
  let rows := aggregator.sentiments_between ch ws (ws + 6) db in
  WeeklySummary.channel_id w = ch
  /\ WeeklySummary.week_start w = ws
  /\ WeeklySummary.week_end w = (ws + 6)%Z
  /\ WeeklySummary.message_count w = Z.of_nat (length rows)
  /\ WeeklySummary.active_user_count w
     = Z.of_nat (size (aggregator.unique_users rows))
  /\ db' = (if WeeklySummary.burnout_flag w
            then aggregator.generate_burnout_insight iso now ch w
                   (add_weekly w db)
            else add_weekly w db).
Proof.
  intros Hnew. unfold aggregator.create_weekly_summary.
  unfold has_weekly_summary in Hnew.
  rewrite (existsb_false_find _ _ Hnew).
  destruct (aggregator.sentiments_between ch ws (ws + 6) db) as [|s rows] eqn:E;
    [discriminate|].
  intros [= <- <-]. simpl. repeat split; reflexivity.
Qed.

(** X10. Creating a weekly summary is idempotent: once a call has returned
    a summary, a further call for the same channel and week, at any time,
    returns that summary and changes nothing, so that no second summary and
    no second alert are stored. *)
Theorem create_weekly_summary_idempotent cfg iso now now' ch ws db w db1 :
  aggregator.create_weekly_summary cfg iso now ch ws db = (Some w, db1) ->
  aggregator.create_weekly_summary cfg iso now' ch ws db1 = (Some w, db1).
Proof.
  intros Hc.
  destruct (has_weekly_summary ch ws db) eqn:Hnew.
  - revert Hc. unfold aggregator.create_weekly_summary.
    destruct (find _ (weekly_summaries db)) as [existing|] eqn:Efind.
    + intros [= -> ->]. rewrite Efind. reflexivity.
    + exfalso. unfold has_weekly_summary in Hnew.
      apply existsb_exists in Hnew as (x & Hin & Hx).
      pose proof (find_none _ _ Efind x Hin). congruence.
  - destruct (create_weekly_summary_new _ _ _ _ _ _ _ _ Hnew Hc)
      as (Hch & Hws & _ & _ & _ & Hdb).
    assert (Hweekly : weekly_summaries db1 = weekly_summaries db ++ [w]).
    { rewrite Hdb. destruct (WeeklySummary.burnout_flag w); [|reflexivity].
      rewrite (proj2 (burnout_insight_keeps_tables _ _ _ _ _)). reflexivity. }
    unfold aggregator.create_weekly_summary. rewrite Hweekly.
    unfold has_weekly_summary in Hnew.
    rewrite (find_app_none _ _ _ (existsb_false_find _ _ Hnew)).
    rewrite Hch, Hws, String.eqb_refl, Z.eqb_refl. reflexivity.
Qed.

Lemma create_weekly_summary_idempotent_witness :
  exists w db1,
    aggregator.create_weekly_summary aggregator.default_config (fun _ => "")
      0 "C1" 8 (one_message_week (-0.25)) = (Some w, db1)
    /\ aggregator.create_weekly_summary aggregator.default_config (fun _ => "")
         5 "C1" 8 db1 = (Some w, db1).
Proof.
  eexists; eexists; split; [vm_compute; reflexivity|].
  apply (create_weekly_summary_idempotent aggregator.default_config
           (fun _ => "") 0 5 "C1" 8 (one_message_week (-0.25))).
  vm_compute; reflexivity.
Defined.

(** X11. Creating the summary of a week stores no message row and exactly
    one summary.  An unflagged summary leaves the insights as they are; a
    flagged one leaves the store with an active [burnout_alert] of the
    channel from the last seven days, adding at most one insight. *)
Theorem weekly_summary_raises_alert cfg iso now ch ws db w db1 :
  has_weekly_summary ch ws db = false ->
  aggregator.create_weekly_summary cfg iso now ch ws db = (Some w, db1) ->
  sentiments db1 = sentiments db
  /\ weekly_summaries db1 = weekly_summaries db ++ [w]
  /\ (WeeklySummary.burnout_flag w = false -> insights db1 = insights db)
  /\ (WeeklySummary.burnout_flag w = true ->
      (exists i, In i (insights db1)
                 /\ aggregator.is_recent_burnout_alert ch now i = true)
      /\ (insights db1 = insights db
          \/ exists i, insights db1 = insights db ++ [i])).
Proof.
  intros Hnew Hc.
  destruct (create_weekly_summary_new _ _ _ _ _ _ _ _ Hnew Hc)
    as (_ & _ & _ & _ & _ & ->).
  destruct (WeeklySummary.burnout_flag w) eqn:Hflag.
  - destruct (burnout_insight_keeps_tables iso now ch w (add_weekly w db))
      as [-> ->].
    split; [reflexivity|]. split; [reflexivity|]. split; [discriminate|].
    intros _.
    destruct (find (aggregator.is_recent_burnout_alert ch now)
                (insights (add_weekly w db))) as [i|] eqn:Efind.
    + destruct (find_some _ _ Efind) as [Hin Hrecent].
      rewrite (burnout_insight_skipped iso now ch w _ i Hin Hrecent).
      split; [exists i; auto | left; reflexivity].
    + destruct (burnout_insight_created iso now ch w _ Efind)
        as (i & -> & Hch & Hty & Hact & Hat).
      simpl. split; [|right; exists i; reflexivity].
      exists i. split; [apply in_or_app; right; left; reflexivity|].
      unfold aggregator.is_recent_burnout_alert.
      rewrite Hch, Hty, Hact, Hat, String.eqb_refl. simpl.
      apply Z.leb_le. unfold aggregator.seven_days. lia.
  - split; [reflexivity|]. split; [reflexivity|].
    split; [reflexivity | discriminate].
Qed.

Lemma weekly_summary_raises_alert_witness :
  exists w db1,
    aggregator.create_weekly_summary aggregator.default_config (fun _ => "")
      0 "C1" 8 (one_message_week (-0.25)) = (Some w, db1)
    /\ exists i, In i (insights db1)
                 /\ aggregator.is_recent_burnout_alert "C1" 0 i = true.
Proof.
  eexists; eexists; split; [vm_compute; reflexivity|].
  eapply (weekly_summary_raises_alert aggregator.default_config (fun _ => "")
            0 "C1" 8 (one_message_week (-0.25))).
  - reflexivity.
  - vm_compute; reflexivity.
  - reflexivity.
Defined.

Lemma size_list_to_set_le (l : list string) :
  (size (list_to_set l : gset string) <= length l)%nat.
Proof.
  induction l as [|x l IH].
  - rewrite list_to_set_nil, size_empty. simpl. lia.
  - rewrite list_to_set_cons, size_union_alt, size_singleton. simpl length.
    assert (Hsub : (list_to_set l : gset string) ∖ {[x]} ⊆ list_to_set l).
    { intros y Hy. apply elem_of_difference in Hy as [Hy _]. exact Hy. }
    apply subseteq_size in Hsub. lia.
Qed.

Lemma length_omap_le {A B} (f : A -> option B) l :
  (length (omap f l) <= length l)%nat.
Proof.
  induction l as [|x l IH]; csimpl; [lia|].
  destruct (f x); csimpl; lia.
Qed.

(** X12. A created weekly summary covers seven days, counts the rows of
    the channel dated in the week, of which there is at least one, and its
    number of active users is at most its number of messages. *)
Theorem weekly_summary_counts cfg iso now ch ws db w db1 :
  has_weekly_summary ch ws db = false ->
  aggregator.create_weekly_summary cfg iso now ch ws db = (Some w, db1) ->
  WeeklySummary.channel_id w = ch
  /\ WeeklySummary.week_start w = ws
  /\ WeeklySummary.week_end w = (ws + 6)%Z
  /\ WeeklySummary.message_count w
     = Z.of_nat (length (aggregator.sentiments_between ch ws (ws + 6) db))
  /\ (1 <= WeeklySummary.message_count w)%Z
  /\ (0 <= WeeklySummary.active_user_count w
      <= WeeklySummary.message_count w)%Z.
Proof.
  intros Hnew Hc.
  pose proof (create_weekly_summary_created _ _ _ _ _ _ _ _ Hnew Hc) as Hrows.
  destruct (create_weekly_summary_new _ _ _ _ _ _ _ _ Hnew Hc)
    as (Hch & Hws & Hwe & Hmc & Hau & _).
  repeat split; try assumption.
  - rewrite Hmc.
    destruct (aggregator.sentiments_between ch ws (ws + 6) db);
      [congruence | simpl length; lia].
  - rewrite Hau. lia.
  - rewrite Hau, Hmc. apply inj_le. unfold aggregator.unique_users.
    etransitivity; [apply size_list_to_set_le | apply length_omap_le].
Qed.

Lemma weekly_summary_counts_witness :
  exists w db1,
    aggregator.create_weekly_summary aggregator.default_config (fun _ => "")
      0 "C1" 8 (two_message_weeks 0.25 0) = (Some w, db1)
    /\ WeeklySummary.week_end w = (8 + 6)%Z.
Proof.
  eexists; eexists; split; [vm_compute; reflexivity|].
  eapply (weekly_summary_counts aggregator.default_config (fun _ => "")
            0 "C1" 8 (two_message_weeks 0.25 0)).
  - reflexivity.
  - vm_compute; reflexivity.
Defined.

(** ** Weekly summaries on float scores *)

(** A summary created for a week that had none: its flag and level in
    terms of the mean and trend the call computes. *)
Lemma create_weekly_summary64_fresh cfg sum iso now ch ws db :
  has_weekly_summary64 ch ws db = false ->
  float64.sentiments_between ch ws (ws + 6) db <> [] ->
  exists w db',
    float64.create_weekly_summary cfg sum iso now ch ws db = (Some w, db')
    /\ float64.WeeklySummary.burnout_flag w
       = float64.le (week_trend64 sum ch ws db)
           (float64.BURNOUT_DELTA_THRESHOLD cfg)
         || float64.le (week_mean64 sum ch ws db)
              (float64.SENTIMENT_THRESHOLD_NEGATIVE cfg)
    /\ float64.WeeklySummary.engagement_level w
       = (if float64.ge (week_mean64 sum ch ws db) 0.3%float then "High"
          else if float64.ge (week_mean64 sum ch ws db) 0.1%float then "Medium"
          else if float64.ge (week_mean64 sum ch ws db) (-0.1)%float then "Low"
          else "Critical").
Proof.
  intros Hnew Hrows. unfold float64.create_weekly_summary.
  unfold has_weekly_summary64 in Hnew.
  rewrite (existsb_false_find _ _ Hnew).
  unfold week_trend64, week_mean64.
  destruct (float64.sentiments_between ch ws (ws + 6) db) as [|s rows] eqn:E;
    [congruence|].
  eexists; eexists. split; [reflexivity|].
  cbn [float64.WeeklySummary.burnout_flag float64.WeeklySummary.engagement_level].
  destruct (float64.sentiments_between ch (ws - 7) (ws - 7 + 6) db);
    split; reflexivity.
Qed.

Lemma create_weekly_summary64_created cfg sum iso now ch ws db w db' :
  has_weekly_summary64 ch ws db = false ->
  float64.create_weekly_summary cfg sum iso now ch ws db = (Some w, db') ->
  float64.sentiments_between ch ws (ws + 6) db <> [].
Proof.
  intros Hnew. unfold float64.create_weekly_summary.
  unfold has_weekly_summary64 in Hnew.
  rewrite (existsb_false_find _ _ Hnew).
  destruct (float64.sentiments_between ch ws (ws + 6) db); [discriminate|].
  intros _ [=].
Qed.

Lemma created_summary64_fields cfg sum iso now ch ws db w db' :
  has_weekly_summary64 ch ws db = false ->
  float64.create_weekly_summary cfg sum iso now ch ws db = (Some w, db') ->
  float64.WeeklySummary.burnout_flag w
  = float64.le (week_trend64 sum ch ws db)
      (float64.BURNOUT_DELTA_THRESHOLD cfg)
    || float64.le (week_mean64 sum ch ws db)
         (float64.SENTIMENT_THRESHOLD_NEGATIVE cfg)
  /\ float64.WeeklySummary.engagement_level w
     = (if float64.ge (week_mean64 sum ch ws db) 0.3%float then "High"
        else if float64.ge (week_mean64 sum ch ws db) 0.1%float then "Medium"
        else if float64.ge (week_mean64 sum ch ws db) (-0.1)%float then "Low"
        else "Critical").
Proof.
  intros Hnew Hc.
  pose proof (create_weekly_summary64_created _ _ _ _ _ _ _ _ _ Hnew Hc) as Hrows.
  destruct (create_weekly_summary64_fresh cfg sum iso now ch ws db Hnew Hrows)
    as (w0 & db0 & Hc0 & Hflag & Hlevel).
  rewrite Hc in Hc0. injection Hc0 as -> ->. auto.
Qed.

(** C6. Under the default configuration, a weekly summary that is created
    is flagged for burnout exactly when the trend it computes is at most
    -0.2 or the mean it computes is at most -0.1, as floats; the trend is
    the week's mean minus the mean of the seven days before, and 0 when
    those hold no message.  Mean -0.25 with trend 0 is flagged, mean 0 with
    trend -0.25 is flagged, mean 0 with trend 0 is not.  (The trend is the
    rounded difference: means 0.1 after 0.3 give -0.19999999999999998, which
    is not flagged.) *)
Theorem burnout_flag_rule :
  (forall sum iso now ch ws db w db',
     has_weekly_summary64 ch ws db = false ->
     float64.create_weekly_summary float64.default_config sum iso now ch ws db
     = (Some w, db') ->
     (float64.WeeklySummary.burnout_flag w = true
      <-> float64.le (week_trend64 sum ch ws db) (-0.2)%float = true
          \/ float64.le (week_mean64 sum ch ws db) (-0.1)%float = true))
  /\ (forall sum ch ws db,
        float64.sentiments_between ch (ws - 7) (ws - 7 + 6) db = [] ->
        week_trend64 sum ch ws db = 0.0%float)
  /\ (forall iso now,
        week_mean64 float64.sum_left "C1" 8 (weeks64 [] [(-0.25)%float])
        = (-0.25)%float
        /\ week_trend64 float64.sum_left "C1" 8 (weeks64 [] [(-0.25)%float])
           = 0.0%float
        /\ float64.WeeklySummary.burnout_flag
           <$> (float64.create_weekly_summary float64.default_config
                  float64.sum_left iso now "C1" 8
                  (weeks64 [] [(-0.25)%float])).1 = Some true)
  /\ (forall iso now,
        week_mean64 float64.sum_left "C1" 8 (weeks64 [0.25%float] [0.0%float])
        = 0.0%float
        /\ week_trend64 float64.sum_left "C1" 8
             (weeks64 [0.25%float] [0.0%float]) = (-0.25)%float
        /\ float64.WeeklySummary.burnout_flag
           <$> (float64.create_weekly_summary float64.default_config
                  float64.sum_left iso now "C1" 8
                  (weeks64 [0.25%float] [0.0%float])).1 = Some true)
  /\ (forall iso now,
        week_mean64 float64.sum_left "C1" 8 (weeks64 [] [0.0%float]) = 0.0%float
        /\ week_trend64 float64.sum_left "C1" 8 (weeks64 [] [0.0%float])
           = 0.0%float
        /\ float64.WeeklySummary.burnout_flag
           <$> (float64.create_weekly_summary float64.default_config
                  float64.sum_left iso now "C1" 8
                  (weeks64 [] [0.0%float])).1 = Some false)
  /\ (forall iso now,
        week_trend64 float64.sum_left "C1" 8 (weeks64 [0.3%float] [0.1%float])
        = (-0.19999999999999998)%float
        /\ float64.WeeklySummary.burnout_flag
           <$> (float64.create_weekly_summary float64.default_config
                  float64.sum_left iso now "C1" 8
                  (weeks64 [0.3%float] [0.1%float])).1 = Some false).
Proof.
  split; [|split].
  - intros sum iso now ch ws db w db' Hnew Hc.
    destruct (created_summary64_fields _ _ _ _ _ _ _ _ _ Hnew Hc) as [-> _].
    cbn [float64.default_config float64.BURNOUT_DELTA_THRESHOLD
         float64.SENTIMENT_THRESHOLD_NEGATIVE].
    apply orb_true_iff.
  - intros sum ch ws db Hprev. unfold week_trend64. rewrite Hprev. reflexivity.
  - repeat split; try (vm_compute; reflexivity);
      match goal with
      | |- _ <$> (float64.create_weekly_summary ?cfg ?sum ?iso ?now ?ch ?ws ?db).1
           = _ =>
          destruct (create_weekly_summary64_fresh cfg sum iso now ch ws db)
            as (w & db' & -> & -> & _);
          [vm_compute; reflexivity | vm_compute; discriminate
          | vm_compute; reflexivity]
      end.
Qed.

Lemma burnout_flag_rule_witness :
  exists w db',
    float64.create_weekly_summary float64.default_config float64.sum_left
      (fun _ => "") 0 "C1" 8 (weeks64 [] [(-0.25)%float]) = (Some w, db')
    /\ float64.WeeklySummary.burnout_flag w = true.
Proof.
  eexists; eexists; split; [vm_compute; reflexivity|].
  eapply (proj1 burnout_flag_rule float64.sum_left (fun _ => "") 0%Z "C1" 8%Z
            (weeks64 [] [(-0.25)%float])).
  - reflexivity.
  - vm_compute; reflexivity.
  - right. vm_compute. reflexivity.
Defined.

(** C7. A weekly summary that is created has engagement level "High" when
    the mean it computes is at least 0.3, "Medium" when it is at least 0.1
    but not 0.3, "Low" when it is at least -0.1 but not 0.1, and "Critical"
    otherwise, the comparisons being those of floats.  Mean 0.3 gives High,
    0.0999 gives Low, -0.1 gives Low and -0.1000001 gives Critical.  (The
    mean is the rounded one: scores -0.5 and 0.7 have the mean
    0.09999999999999998, level Low.) *)
Theorem engagement_level_rule :
  (forall cfg sum iso now ch ws db w db',
     has_weekly_summary64 ch ws db = false ->
     float64.create_weekly_summary cfg sum iso now ch ws db = (Some w, db') ->
     let mean := week_mean64 sum ch ws db in
     let level := float64.WeeklySummary.engagement_level w in
     (float64.ge mean 0.3%float = true -> level = "High")
     /\ (float64.ge mean 0.1%float = true ->
         float64.ge mean 0.3%float = false -> level = "Medium")
     /\ (float64.ge mean (-0.1)%float = true ->
         float64.ge mean 0.1%float = false ->
         float64.ge mean 0.3%float = false -> level = "Low")
     /\ (float64.ge mean (-0.1)%float = false ->
         float64.ge mean 0.1%float = false ->
         float64.ge mean 0.3%float = false -> level = "Critical"))
  /\ (forall cfg iso now,
        let mean scores :=
          week_mean64 float64.sum_left "C1" 8 (weeks64 [] scores) in
        let level scores :=
          float64.WeeklySummary.engagement_level
          <$> (float64.create_weekly_summary cfg float64.sum_left iso now
                 "C1" 8 (weeks64 [] scores)).1 in
        (mean [0.3%float] = 0.3%float /\ level [0.3%float] = Some "High")
        /\ (mean [0.0999%float] = 0.0999%float
            /\ level [0.0999%float] = Some "Low")
        /\ (mean [(-0.1)%float] = (-0.1)%float
            /\ level [(-0.1)%float] = Some "Low")
        /\ (mean [(-0.1000001)%float] = (-0.1000001)%float
            /\ level [(-0.1000001)%float] = Some "Critical")
        /\ (mean [(-0.5)%float; 0.7%float] = 0.09999999999999998%float
            /\ level [(-0.5)%float; 0.7%float] = Some "Low")).
Proof.
  split.
  - intros cfg sum iso now ch ws db w db' Hnew Hc mean level.
    destruct (created_summary64_fields _ _ _ _ _ _ _ _ _ Hnew Hc) as [_ Hl].
    unfold level. rewrite Hl. fold mean.
    destruct (float64.ge mean 0.3%float), (float64.ge mean 0.1%float),
      (float64.ge mean (-0.1)%float); repeat split; intros;
      first [reflexivity | discriminate].
  - intros cfg iso now mean level. unfold mean, level.
    repeat split; try (vm_compute; reflexivity);
      match goal with
      | |- _ <$> (float64.create_weekly_summary ?cfg ?sum ?iso ?now ?ch ?ws ?db).1
           = _ =>
          destruct (create_weekly_summary64_fresh cfg sum iso now ch ws db)
            as (w & db' & -> & _ & ->);
          [vm_compute; reflexivity | vm_compute; discriminate
          | vm_compute; reflexivity]
      end.
Qed.

Lemma engagement_level_rule_witness :
  exists w db',
    float64.create_weekly_summary float64.default_config float64.sum_left
      (fun _ => "") 0 "C1" 8 (weeks64 [] [0.3%float]) = (Some w, db')
    /\ float64.WeeklySummary.engagement_level w = "High".
Proof.
  eexists; eexists; split; [vm_compute; reflexivity|].
  eapply (proj1 engagement_level_rule float64.default_config float64.sum_left
            (fun _ => "") 0%Z "C1" 8%Z (weeks64 [] [0.3%float])).
  - reflexivity.
  - vm_compute; reflexivity.
  - vm_compute. reflexivity.
Defined.

(** ** Engagement spikes on float means *)





(** ** Adding a reaction and removing it again, on floats *)

Lemma reaction_on_stored64 ts ch reaction modifier db r :
  stored64 ts ch db = Some r ->
  stored64 ts ch
    (float64.update_sentiment_with_reaction ts ch reaction modifier db).2
  = Some (float64.apply_reaction
            (PrimFloat.mul
               (default 0.0%float (float64.REACTION_SCORES !! reaction))
               (float64.of_int modifier)) r).
Proof.
  intros Hst. unfold float64.update_sentiment_with_reaction.
  unfold stored64 in Hst. rewrite Hst.
  unfold stored64; cbn [snd float64.sentiments].
  apply find_update_first_same; [|exact Hst].
  reflexivity.
Qed.

(** From a reaction boost of 0, adding a weight of the table and taking it
    away again gives 0: the two additions are exact. *)
Lemma weights_cancel reaction :
  let w := default 0.0%float (float64.REACTION_SCORES !! reaction) in
  PrimFloat.add
    (PrimFloat.add 0.0%float (PrimFloat.mul w (float64.of_int 1)))
    (PrimFloat.mul w (float64.of_int (-1)))
  = 0.0%float.
Proof.
  destruct (float64.REACTION_SCORES !! reaction) as [w|] eqn:E;
    [|vm_compute; reflexivity].
  unfold float64.REACTION_SCORES in E.
  apply elem_of_list_to_map_2 in E. apply list_elem_of_In in E.
  cbn [default]. simpl in E.
  repeat (destruct E as [E | E];
          [injection E as _ <-; vm_compute; reflexivity|]).
  destruct E.
Qed.

(** C1, as stated, fails.  The row of a message without text (all
    components 0) has received an "eyes" reaction: reaction boost and final
    score are 0.1.  A "thumbsup" is added and removed again: the float
    additions 0.1 + 0.5 and 0.6 - 0.5 leave 0.09999999999999998 in both,
    which is not the value before. *)
Lemma reaction_round_trip_rounds :
  exists r1 r2,
    stored64 "1.0" "C1"
      (run_reactions64 [Reaction "1.0" "C1" "eyes" 1] (weeks64 [] [0.0%float]))
    = Some r1
    /\ stored64 "1.0" "C1"
         (run_reactions64
            [Reaction "1.0" "C1" "thumbsup" 1;
             Reaction "1.0" "C1" "thumbsup" (-1)]
            (run_reactions64 [Reaction "1.0" "C1" "eyes" 1]
               (weeks64 [] [0.0%float])))
       = Some r2
    /\ float64.Sentiment.reaction_boost r1 = 0.1%float
    /\ float64.Sentiment.final_score r1 = 0.1%float
    /\ float64.Sentiment.reaction_boost r2 = 0.09999999999999998%float
    /\ float64.Sentiment.final_score r2 = 0.09999999999999998%float
    /\ PrimFloat.eqb (float64.Sentiment.reaction_boost r2)
         (float64.Sentiment.reaction_boost r1) = false
    /\ PrimFloat.eqb (float64.Sentiment.final_score r2)
         (float64.Sentiment.final_score r1) = false.
Proof.
  eexists; eexists.
  split; [vm_compute; reflexivity|].
  split; [vm_compute; reflexivity|].
  repeat split; vm_compute; reflexivity.
Qed.

(** C1, amended.  For a stored row with a reaction boost of 0 whose final
    score is the clamped sum of text score, emoji boost and reaction boost,
    a reaction applied with direction +1 and then with direction -1 leaves
    the reaction boost at 0 and the final score at its value before, for
    every reaction name. *)
Theorem reaction_round_trip_from_zero ts ch reaction db r :
  stored64 ts ch db = Some r ->
  float64.Sentiment.reaction_boost r = 0.0%float ->
  float64.Sentiment.final_score r
  = float64.min
      (float64.max
         (PrimFloat.add
            (PrimFloat.add (float64.Sentiment.sentiment_score r)
               (float64.Sentiment.emoji_boost r))
            (float64.Sentiment.reaction_boost r)) (-1.0)%float) 1.0%float ->
  exists r2,
    stored64 ts ch
      (run_reactions64 [Reaction ts ch reaction 1; Reaction ts ch reaction (-1)]
         db) = Some r2
    /\ float64.Sentiment.reaction_boost r2 = float64.Sentiment.reaction_boost r
    /\ float64.Sentiment.final_score r2 = float64.Sentiment.final_score r.
Proof.
  intros Hst Hzero Hfinal.
  cbn [run_reactions64 fold_left run_call64].
  pose proof (reaction_on_stored64 ts ch reaction 1 db r Hst) as H1.
  pose proof (reaction_on_stored64 ts ch reaction (-1) _ _ H1) as H2.
  eexists. split; [exact H2|].
  cbn [float64.apply_reaction float64.Sentiment.reaction_boost
       float64.Sentiment.final_score float64.Sentiment.sentiment_score
       float64.Sentiment.emoji_boost].
  rewrite Hfinal, Hzero.
  pose proof (weights_cancel reaction) as Hw. cbv zeta in Hw.
  rewrite Hw. split; reflexivity.
Qed.

Lemma reaction_round_trip_from_zero_witness :
  exists r2,
    stored64 "1.0" "C1"
      (run_reactions64
         [Reaction "1.0" "C1" "heart" 1; Reaction "1.0" "C1" "heart" (-1)]
         (weeks64 [] [0.0%float])) = Some r2
    /\ float64.Sentiment.reaction_boost r2 = 0.0%float
    /\ float64.Sentiment.final_score r2 = 0.0%float.
Proof.
  apply (reaction_round_trip_from_zero "1.0" "C1" "heart"
           (weeks64 [] [0.0%float]) (row64 "C1" "1.0" 10 0.0%float)).
  - reflexivity.
  - reflexivity.
  - vm_compute. reflexivity.
Defined.
